(** * Alex: packet protocol and command dispatch

    A shallow embedding of the device sketch ([Alex.ino], the motor and
    ultrasonic tabs, [colour.ino]) and of the operator console
    ([tls-alex-client.cpp]), with the properties of the protocol layer
    proved about it.

    Conventions.
    - [unsigned long] on the ATmega2560 is 32 bits wide: counters are [Z]
      values kept in [0, 2^32) by [ulong].
    - A packet parameter is a signed 32-bit slot ([int32]).
    - Every [float] the dispatcher hands to the motion routines is the
      conversion of a 32-bit integer, so it is integral; such a float is
      represented by the integer it denotes ([float_of_long] performs the
      rounding to a 24-bit significand).  Floating-point formulas with
      fractional intermediate values are fields of [FloatOps].
    - Output and actuation are recorded as a trace of events, in program
      order. *)

From Stdlib Require Import ZArith List String Ascii Lia.
From stdpp Require Import base tactics option list.
Import ListNotations.
Local Open Scope Z_scope.

(** ** Machine integers *)

Definition ulong (z : Z) : Z := z mod 2 ^ 32.

Definition int32 (z : Z) : Z := (z + 2 ^ 31) mod 2 ^ 32 - 2 ^ 31.

(** Conversion of a 32-bit integer to binary32, as the integer the float
    denotes: exact below 2^24, otherwise rounded to 24 significant bits,
    ties to even. *)
Definition float_of_long (n : Z) : Z :=
  let a := Z.abs n in
  if a <? 2 ^ 24 then n
  else
    let e := Z.log2 a - 23 in
    let q := a / 2 ^ e in
    let r := a mod 2 ^ e in
    let half := 2 ^ (e - 1) in
    let q' := if r <? half then q
              else if half <? r then q + 1
              else if Z.even q then q else q + 1 in
    Z.sgn n * (q' * 2 ^ e).

(** Little-endian layout of a 32-bit slot in memory, as [memcpy] sees it on
    the operator's machine. *)
Definition le32 (z : Z) : list Z :=
  let u := ulong z in
  [u mod 256; (u / 256) mod 256; (u / 65536) mod 256; (u / 16777216) mod 256].

Definition byte_at (buffer : list Z) (i : nat) : Z := nth i buffer 0 mod 256.

Definition read_int32 (buffer : list Z) (off : nat) : Z :=
  int32 (byte_at buffer off
         + 256 * byte_at buffer (off + 1)
         + 65536 * byte_at buffer (off + 2)
         + 16777216 * byte_at buffer (off + 3)).

(** ** Constants of the missing headers

    [constants.h] and [packet.h] are not part of the sources at hand.  The
    numeric values of the enumerators are therefore left open: every
    statement below holds for any assignment, with the distinctness it needs
    stated as a hypothesis (C requires the case labels of one [switch] to be
    distinct). *)

Class Constants := {
  PACKET_TYPE_COMMAND : Z;
  PACKET_TYPE_RESPONSE : Z;
  PACKET_TYPE_ERROR : Z;
  PACKET_TYPE_MESSAGE : Z;
  PACKET_TYPE_HELLO : Z;
  RESP_OK : Z;
  RESP_STATUS : Z;
  RESP_BAD_PACKET : Z;
  RESP_BAD_CHECKSUM : Z;
  RESP_BAD_COMMAND : Z;
  RESP_BAD_RESPONSE : Z;
  RESP_COLOUR : Z;
  RESP_ULTRASONIC : Z;
  COMMAND_FORWARD : Z;
  COMMAND_REVERSE : Z;
  COMMAND_TURN_LEFT : Z;
  COMMAND_TURN_RIGHT : Z;
  COMMAND_STOP : Z;
  COMMAND_GET_STATS : Z;
  COMMAND_CLEAR_STATS : Z;
  COMMAND_GRAB : Z;
  COMMAND_RELEASE : Z;
  COMMAND_MED : Z;
  COMMAND_COLOUR : Z;
  COMMAND_ULTRASONIC : Z
}.

(** One assignment of pairwise distinct values, used to evaluate the
    definitions on concrete inputs. *)
Definition sample_constants : Constants := {|
  PACKET_TYPE_COMMAND := 0;
  PACKET_TYPE_RESPONSE := 1;
  PACKET_TYPE_ERROR := 2;
  PACKET_TYPE_MESSAGE := 3;
  PACKET_TYPE_HELLO := 4;
  RESP_OK := 0;
  RESP_STATUS := 1;
  RESP_BAD_PACKET := 2;
  RESP_BAD_CHECKSUM := 3;
  RESP_BAD_COMMAND := 4;
  RESP_BAD_RESPONSE := 5;
  RESP_COLOUR := 6;
  RESP_ULTRASONIC := 7;
  COMMAND_FORWARD := 0;
  COMMAND_REVERSE := 1;
  COMMAND_TURN_LEFT := 2;
  COMMAND_TURN_RIGHT := 3;
  COMMAND_STOP := 4;
  COMMAND_GET_STATS := 5;
  COMMAND_CLEAR_STATS := 6;
  COMMAND_GRAB := 7;
  COMMAND_RELEASE := 8;
  COMMAND_MED := 9;
  COMMAND_COLOUR := 10;
  COMMAND_ULTRASONIC := 11
|}.

(** The twelve case labels of [handleCommand]'s switch, in source order. *)
Definition command_codes `{Constants} : list Z :=
  [COMMAND_FORWARD; COMMAND_REVERSE; COMMAND_TURN_RIGHT; COMMAND_TURN_LEFT;
   COMMAND_STOP; COMMAND_GET_STATS; COMMAND_CLEAR_STATS; COMMAND_GRAB;
   COMMAND_COLOUR; COMMAND_ULTRASONIC; COMMAND_RELEASE; COMMAND_MED].

(** Result of [readPacket] / [deserialize]: the enumerators of [TResult]
    that the sketch names. *)
Inductive TResult :=
  | PACKET_OK
  | PACKET_BAD
  | PACKET_CHECKSUM_BAD
  | PACKET_INCOMPLETE.

(** Direction of travel, the type of the global [dir]: the enumerators of
    [TDirection] that the sketch names. *)
Inductive TDirection := STOP | FORWARD | BACKWARD | LEFT | RIGHT.

(** Modelled from the spec: [packet.h], which declares [TPacket], is not
    among the sources; the data model gives a packet a kind, a code and
    sixteen signed 32-bit parameters.  A parameter slot that the program
    never assigned holds an indeterminate value: [None].  The text buffer
    [data] is written only by [sendMessage], which no path of the sketch
    calls, and is left out. *)
Record TPacket := mkPacket {
  packetType : Z;
  command : Z;
  params : list (option Z)
}.

Definition MAX_PARAMS : nat := 16.

Definition unassigned : list (option Z) := replicate MAX_PARAMS None.

(** A packet as [deserialize] delivers it: all sixteen slots hold a value. *)
Definition decoded (p : TPacket) : Prop :=
  length (params p) = MAX_PARAMS /\ Forall is_Some (params p).

Definition received (ty code : Z) (ps : list Z) : TPacket :=
  mkPacket ty code (map Some (take MAX_PARAMS (ps ++ replicate MAX_PARAMS 0))).

(** ** The device sketch *)

Module Alex.

(** Floating-point routines of the sketch whose intermediate values are
    fractional.  They are evaluated by the AVR software float library and are
    kept as they are named in the source.
    - [computeDeltaTicks ang] is
      [(unsigned long) ((ang * alexCirc * COUNTS_PER_REV) / (360.0 * WHEEL_CIRC))],
      where [alexCirc] is the float that [setup] computes;
    - [ticksToDist t] is [(unsigned long) ((float) t / COUNTS_PER_REV * WHEEL_CIRC)],
      the expression in [leftISR];
    - [min_index r g b] is the index that [evaluateColour] stores in slot 3. *)
Class FloatOps := {
  computeDeltaTicks : Z -> Z;
  ticksToDist : Z -> Z;
  min_index : Z -> Z -> Z -> Z
}.

(** Sensor readings, the values the out-of-scope sampling code returns. *)
Record Sensors := mkSensors {
  readFrequency : bool -> bool -> Z;
  readUltrasonic : Z
}.

(** The global variables of the sketch. *)
Record State := mkState {
  dir : TDirection;
  leftForwardTicks : Z;
  rightForwardTicks : Z;
  rightReverseTicks : Z;
  leftReverseTicks : Z;
  rightForwardTicksTurns : Z;
  leftForwardTicksTurns : Z;
  rightReverseTicksTurns : Z;
  leftReverseTicksTurns : Z;
  leftRevs : Z;
  rightRevs : Z;
  forwardDist : Z;
  reverseDist : Z;
  deltaDist : Z;
  newDist : Z;
  deltaTicks : Z;
  targetTicks : Z
}.

Definition set_dir v s :=
  mkState v (leftForwardTicks s) (rightForwardTicks s) (rightReverseTicks s)
    (leftReverseTicks s) (rightForwardTicksTurns s) (leftForwardTicksTurns s)
    (rightReverseTicksTurns s) (leftReverseTicksTurns s) (leftRevs s)
    (rightRevs s) (forwardDist s) (reverseDist s) (deltaDist s) (newDist s)
    (deltaTicks s) (targetTicks s).
Definition set_leftForwardTicks v s :=
  mkState (dir s) v (rightForwardTicks s) (rightReverseTicks s)
    (leftReverseTicks s) (rightForwardTicksTurns s) (leftForwardTicksTurns s)
    (rightReverseTicksTurns s) (leftReverseTicksTurns s) (leftRevs s)
    (rightRevs s) (forwardDist s) (reverseDist s) (deltaDist s) (newDist s)
    (deltaTicks s) (targetTicks s).
Definition set_rightForwardTicks v s :=
  mkState (dir s) (leftForwardTicks s) v (rightReverseTicks s)
    (leftReverseTicks s) (rightForwardTicksTurns s) (leftForwardTicksTurns s)
    (rightReverseTicksTurns s) (leftReverseTicksTurns s) (leftRevs s)
    (rightRevs s) (forwardDist s) (reverseDist s) (deltaDist s) (newDist s)
    (deltaTicks s) (targetTicks s).
Definition set_rightReverseTicks v s :=
  mkState (dir s) (leftForwardTicks s) (rightForwardTicks s) v
    (leftReverseTicks s) (rightForwardTicksTurns s) (leftForwardTicksTurns s)
    (rightReverseTicksTurns s) (leftReverseTicksTurns s) (leftRevs s)
    (rightRevs s) (forwardDist s) (reverseDist s) (deltaDist s) (newDist s)
    (deltaTicks s) (targetTicks s).
Definition set_leftReverseTicks v s :=
  mkState (dir s) (leftForwardTicks s) (rightForwardTicks s)
    (rightReverseTicks s) v (rightForwardTicksTurns s)
    (leftForwardTicksTurns s) (rightReverseTicksTurns s)
    (leftReverseTicksTurns s) (leftRevs s) (rightRevs s) (forwardDist s)
    (reverseDist s) (deltaDist s) (newDist s) (deltaTicks s) (targetTicks s).
Definition set_rightForwardTicksTurns v s :=
  mkState (dir s) (leftForwardTicks s) (rightForwardTicks s)
    (rightReverseTicks s) (leftReverseTicks s) v (leftForwardTicksTurns s)
    (rightReverseTicksTurns s) (leftReverseTicksTurns s) (leftRevs s)
    (rightRevs s) (forwardDist s) (reverseDist s) (deltaDist s) (newDist s)
    (deltaTicks s) (targetTicks s).
Definition set_leftForwardTicksTurns v s :=
  mkState (dir s) (leftForwardTicks s) (rightForwardTicks s)
    (rightReverseTicks s) (leftReverseTicks s) (rightForwardTicksTurns s) v
    (rightReverseTicksTurns s) (leftReverseTicksTurns s) (leftRevs s)
    (rightRevs s) (forwardDist s) (reverseDist s) (deltaDist s) (newDist s)
    (deltaTicks s) (targetTicks s).
Definition set_rightReverseTicksTurns v s :=
  mkState (dir s) (leftForwardTicks s) (rightForwardTicks s)
    (rightReverseTicks s) (leftReverseTicks s) (rightForwardTicksTurns s)
    (leftForwardTicksTurns s) v (leftReverseTicksTurns s) (leftRevs s)
    (rightRevs s) (forwardDist s) (reverseDist s) (deltaDist s) (newDist s)
    (deltaTicks s) (targetTicks s).
Definition set_leftReverseTicksTurns v s :=
  mkState (dir s) (leftForwardTicks s) (rightForwardTicks s)
    (rightReverseTicks s) (leftReverseTicks s) (rightForwardTicksTurns s)
    (leftForwardTicksTurns s) (rightReverseTicksTurns s) v (leftRevs s)
    (rightRevs s) (forwardDist s) (reverseDist s) (deltaDist s) (newDist s)
    (deltaTicks s) (targetTicks s).
Definition set_forwardDist v s :=
  mkState (dir s) (leftForwardTicks s) (rightForwardTicks s)
    (rightReverseTicks s) (leftReverseTicks s) (rightForwardTicksTurns s)
    (leftForwardTicksTurns s) (rightReverseTicksTurns s)
    (leftReverseTicksTurns s) (leftRevs s) (rightRevs s) v (reverseDist s)
    (deltaDist s) (newDist s) (deltaTicks s) (targetTicks s).
Definition set_reverseDist v s :=
  mkState (dir s) (leftForwardTicks s) (rightForwardTicks s)
    (rightReverseTicks s) (leftReverseTicks s) (rightForwardTicksTurns s)
    (leftForwardTicksTurns s) (rightReverseTicksTurns s)
    (leftReverseTicksTurns s) (leftRevs s) (rightRevs s) (forwardDist s) v
    (deltaDist s) (newDist s) (deltaTicks s) (targetTicks s).
Definition set_deltaDist v s :=
  mkState (dir s) (leftForwardTicks s) (rightForwardTicks s)
    (rightReverseTicks s) (leftReverseTicks s) (rightForwardTicksTurns s)
    (leftForwardTicksTurns s) (rightReverseTicksTurns s)
    (leftReverseTicksTurns s) (leftRevs s) (rightRevs s) (forwardDist s)
    (reverseDist s) v (newDist s) (deltaTicks s) (targetTicks s).
Definition set_newDist v s :=
  mkState (dir s) (leftForwardTicks s) (rightForwardTicks s)
    (rightReverseTicks s) (leftReverseTicks s) (rightForwardTicksTurns s)
    (leftForwardTicksTurns s) (rightReverseTicksTurns s)
    (leftReverseTicksTurns s) (leftRevs s) (rightRevs s) (forwardDist s)
    (reverseDist s) (deltaDist s) v (deltaTicks s) (targetTicks s).
Definition set_deltaTicks v s :=
  mkState (dir s) (leftForwardTicks s) (rightForwardTicks s)
    (rightReverseTicks s) (leftReverseTicks s) (rightForwardTicksTurns s)
    (leftForwardTicksTurns s) (rightReverseTicksTurns s)
    (leftReverseTicksTurns s) (leftRevs s) (rightRevs s) (forwardDist s)
    (reverseDist s) (deltaDist s) (newDist s) v (targetTicks s).
Definition set_targetTicks v s :=
  mkState (dir s) (leftForwardTicks s) (rightForwardTicks s)
    (rightReverseTicks s) (leftReverseTicks s) (rightForwardTicksTurns s)
    (leftForwardTicksTurns s) (rightReverseTicksTurns s)
    (leftReverseTicksTurns s) (leftRevs s) (rightRevs s) (forwardDist s)
    (reverseDist s) (deltaDist s) (newDist s) (deltaTicks s) v.

(** What the sketch does to the outside world. *)
Inductive Event :=
  | Sent (p : TPacket)                          (* sendResponse: serialize, writeSerial *)
  | Move (speed : Z) (direction : TDirection)   (* move(speed, direction) *)
  | ServoAttach (servo : nat) (pin : Z)
  | ServoWrite (servo : nat) (angle : Z)
  | Delay (ms : Z)
  | FrequencyRead (s2State s3State : bool)      (* readFrequency(s2State, s3State) *)
  | UltrasonicRead                              (* readUltrasonic() *)
  | Hw (routine : string).                      (* register-level set-up routine *)

Definition SERVO1 : Z := 9.
Definition SERVO2 : Z := 10.
Definition SERVO3 : Z := 30.

Section Sketch.
Context `{K : Constants} `{F : FloatOps}.

Definition sendResponse (packet : TPacket) : list Event := [Sent packet].

(** *** Communication routines *)

Definition sendStatus (s : State) : list Event :=
  let statusPacket := mkPacket PACKET_TYPE_RESPONSE RESP_STATUS unassigned in
  let ps := params statusPacket in
  let ps := <[0%nat := Some (int32 (leftForwardTicks s))]> ps in
  let ps := <[1%nat := Some (int32 (rightForwardTicks s))]> ps in
  let ps := <[2%nat := Some (int32 (leftReverseTicks s))]> ps in
  let ps := <[3%nat := Some (int32 (rightReverseTicks s))]> ps in
  let ps := <[4%nat := Some (int32 (leftForwardTicksTurns s))]> ps in
  let ps := <[5%nat := Some (int32 (rightForwardTicksTurns s))]> ps in
  let ps := <[6%nat := Some (int32 (leftReverseTicksTurns s))]> ps in
  let ps := <[7%nat := Some (int32 (rightReverseTicksTurns s))]> ps in
  let ps := <[8%nat := Some (int32 (forwardDist s))]> ps in
  let ps := <[9%nat := Some (int32 (reverseDist s))]> ps in
  sendResponse (mkPacket (packetType statusPacket) (command statusPacket) ps).

Definition badPacket : TPacket := mkPacket PACKET_TYPE_ERROR RESP_BAD_PACKET unassigned.
Definition badChecksum : TPacket := mkPacket PACKET_TYPE_ERROR RESP_BAD_CHECKSUM unassigned.
Definition badCommand : TPacket := mkPacket PACKET_TYPE_ERROR RESP_BAD_COMMAND unassigned.
Definition badResponse : TPacket := mkPacket PACKET_TYPE_ERROR RESP_BAD_RESPONSE unassigned.
Definition okPacket : TPacket := mkPacket PACKET_TYPE_RESPONSE RESP_OK unassigned.

Definition sendBadPacket : list Event := sendResponse badPacket.
Definition sendBadChecksum : list Event := sendResponse badChecksum.
Definition sendBadCommand : list Event := sendResponse badCommand.
Definition sendBadResponse : list Event := sendResponse badResponse.
Definition sendOK : list Event := sendResponse okPacket.

(** *** Claw *)

Definition setupClaw : list Event :=
  [ServoAttach 1 SERVO1; ServoAttach 2 SERVO2; ServoAttach 3 SERVO3;
   ServoWrite 3 10; ServoWrite 1 0; ServoWrite 2 60].

Definition grab : list Event := [ServoWrite 1 40; ServoWrite 2 20].
Definition release_arm : list Event := [ServoWrite 1 0; ServoWrite 2 75].
Definition medpack : list Event := [ServoWrite 3 90; Delay 1500].

(** *** Encoder interrupts *)

Definition incr (counter : Z) : Z := ulong (counter + 1).

Definition leftISR (s : State) : State :=
  let s :=
    match dir s with
    | FORWARD => set_leftForwardTicks (incr (leftForwardTicks s)) s
    | BACKWARD => set_leftReverseTicks (incr (leftReverseTicks s)) s
    | LEFT => set_leftReverseTicksTurns (incr (leftReverseTicksTurns s)) s
    | RIGHT => set_leftForwardTicksTurns (incr (leftForwardTicksTurns s)) s
    | STOP => s
    end in
  match dir s with
  | FORWARD => set_forwardDist (ticksToDist (leftForwardTicks s)) s
  | BACKWARD => set_reverseDist (ticksToDist (leftReverseTicks s)) s
  | _ => s
  end.

(** The four cases of [rightISR] have no [break]: control entering at the
    matching label runs every statement below it. *)
Definition rightISR_FORWARD (s : State) : State :=
  set_rightForwardTicks (incr (rightForwardTicks s)) s.
Definition rightISR_BACKWARD (s : State) : State :=
  set_rightReverseTicks (incr (rightReverseTicks s)) s.
Definition rightISR_LEFT (s : State) : State :=
  set_rightForwardTicksTurns (incr (rightForwardTicksTurns s)) s.
Definition rightISR_RIGHT (s : State) : State :=
  set_rightReverseTicksTurns (incr (rightReverseTicksTurns s)) s.

Definition rightISR (s : State) : State :=
  match dir s with
  | FORWARD =>
      rightISR_RIGHT (rightISR_LEFT (rightISR_BACKWARD (rightISR_FORWARD s)))
  | BACKWARD => rightISR_RIGHT (rightISR_LEFT (rightISR_BACKWARD s))
  | LEFT => rightISR_RIGHT (rightISR_LEFT s)
  | RIGHT => rightISR_RIGHT s
  | STOP => s
  end.

(** *** Counters *)

Definition clearCounters (s : State) : State :=
  mkState (dir s) 0 0 0 0 0 0 0 0 0 0 0 0
    (deltaDist s) (newDist s) (deltaTicks s) (targetTicks s).

Definition clearOneCounter (which : Z) (s : State) : State := clearCounters s.

Definition initializeState (s : State) : State := clearCounters s.

(** *** Motion (the motor tab) *)

Definition forward (dist speed : Z) (s : State) : State * list Event :=
  let s := if 0 <? dist then set_deltaDist (ulong dist) s
           else set_deltaDist 9999999 s in
  let s := set_newDist (ulong (forwardDist s + deltaDist s)) s in
  let s := set_dir FORWARD s in
  (s, [Move speed FORWARD]).

Definition reverse (dist speed : Z) (s : State) : State * list Event :=
  let s := if 0 <? dist then set_deltaDist (ulong dist) s
           else set_deltaDist 9999999 s in
  let s := set_newDist (ulong (reverseDist s + deltaDist s)) s in
  let s := set_dir BACKWARD s in
  (s, [Move speed BACKWARD]).

Definition left (ang speed : Z) (s : State) : State * list Event :=
  let s := if ang =? 0 then set_deltaTicks 9999999 s
           else set_deltaTicks (computeDeltaTicks ang) s in
  let s := set_targetTicks (ulong (leftReverseTicksTurns s + deltaTicks s)) s in
  let s := set_dir LEFT s in
  (s, [Move speed LEFT]).

Definition right (ang speed : Z) (s : State) : State * list Event :=
  let s := if ang =? 0 then set_deltaTicks 9999999 s
           else set_deltaTicks (computeDeltaTicks ang) s in
  let s := set_targetTicks (ulong (rightReverseTicksTurns s + deltaTicks s)) s in
  let s := set_dir RIGHT s in
  (s, [Move speed RIGHT]).

Definition stop (s : State) : State * list Event :=
  (set_dir STOP s, [Move 0 STOP]).

(** *** Sensors (the colour and ultrasonic tabs) *)

Definition readColour (env : Sensors) : list Event :=
  let colour := mkPacket PACKET_TYPE_RESPONSE RESP_COLOUR unassigned in
  let r := int32 (readFrequency env false false) in
  let ps := <[0%nat := Some r]> (params colour) in
  let g := int32 (readFrequency env true true) in
  let ps := <[1%nat := Some g]> ps in
  let b := int32 (readFrequency env false true) in
  let ps := <[2%nat := Some b]> ps in
  let ps := <[3%nat := Some (int32 (min_index r g b))]> ps in
  [FrequencyRead false false; FrequencyRead true true; FrequencyRead false true]
  ++ sendResponse (mkPacket (packetType colour) (command colour) ps).

Definition sendDist (distance : Z) : list Event :=
  let distancePacket := mkPacket PACKET_TYPE_RESPONSE RESP_ULTRASONIC unassigned in
  sendResponse
    (mkPacket (packetType distancePacket) (command distancePacket)
       (<[0%nat := Some (int32 distance)]> (params distancePacket))).

(** *** Dispatch *)

(** [command->params[i]]: [None] when the slot holds no value. *)
Definition param (p : TPacket) (i : nat) : option Z :=
  match params p !! i with
  | Some (Some v) => Some v
  | _ => None
  end.

Definition handleCommand (env : Sensors) (cmd : TPacket) (s : State)
  : option (State * list Event) :=
  let c := command cmd in
  if c =? COMMAND_FORWARD then
    p0 ← param cmd 0; p1 ← param cmd 1;
    let '(s', ev) := forward (float_of_long p0) (float_of_long p1) s in
    Some (s', sendOK ++ ev)
  else if c =? COMMAND_REVERSE then
    p0 ← param cmd 0; p1 ← param cmd 1;
    let '(s', ev) := reverse (float_of_long p0) (float_of_long p1) s in
    Some (s', sendOK ++ ev)
  else if c =? COMMAND_TURN_RIGHT then
    p0 ← param cmd 0; p1 ← param cmd 1;
    let '(s', ev) := right (float_of_long p0) (float_of_long p1) s in
    Some (s', sendOK ++ ev)
  else if c =? COMMAND_TURN_LEFT then
    p0 ← param cmd 0; p1 ← param cmd 1;
    let '(s', ev) := left (float_of_long p0) (float_of_long p1) s in
    Some (s', sendOK ++ ev)
  else if c =? COMMAND_STOP then
    let '(s', ev) := stop s in Some (s', sendOK ++ ev)
  else if c =? COMMAND_GET_STATS then
    Some (s, sendOK ++ sendStatus s)
  else if c =? COMMAND_CLEAR_STATS then
    p0 ← param cmd 0;
    Some (clearOneCounter p0 s, sendOK)
  else if c =? COMMAND_GRAB then
    Some (s, sendOK ++ grab)
  else if c =? COMMAND_COLOUR then
    Some (s, sendOK ++ readColour env)
  else if c =? COMMAND_ULTRASONIC then
    let dist := ulong (readUltrasonic env) in
    Some (s, sendOK ++ [UltrasonicRead] ++ sendDist dist)
  else if c =? COMMAND_RELEASE then
    Some (s, sendOK ++ release_arm)
  else if c =? COMMAND_MED then
    Some (s, sendOK ++ medpack)
  else
    Some (s, sendBadCommand).

(** [waitForHello] over the outcomes of successive [readPacket] calls.  The
    second component is [Some rest] when the loop has left through [exit=1],
    with the outcomes not yet consumed, and [None] while it still waits. *)
Fixpoint waitForHello (input : list (TResult * TPacket))
  : list Event * option (list (TResult * TPacket)) :=
  match input with
  | [] => ([], None)
  | (result, hello) :: rest =>
      match result with
      | PACKET_INCOMPLETE => waitForHello rest
      | PACKET_OK =>
          if packetType hello =? PACKET_TYPE_HELLO then (sendOK, Some rest)
          else
            let '(ev, out) := waitForHello rest in (sendBadResponse ++ ev, out)
      | PACKET_BAD =>
          let '(ev, out) := waitForHello rest in (sendBadPacket ++ ev, out)
      | PACKET_CHECKSUM_BAD =>
          let '(ev, out) := waitForHello rest in (sendBadChecksum ++ ev, out)
      end
  end.

Definition handlePacket (env : Sensors) (packet : TPacket) (s : State)
  : option (State * list Event) :=
  let t := packetType packet in
  if t =? PACKET_TYPE_COMMAND then handleCommand env packet s
  else if t =? PACKET_TYPE_RESPONSE then Some (s, [])
  else if t =? PACKET_TYPE_ERROR then Some (s, [])
  else if t =? PACKET_TYPE_MESSAGE then Some (s, [])
  else if t =? PACKET_TYPE_HELLO then Some (s, [])
  else Some (s, []).

(** *** [setup] and [loop] *)

Definition setup (s : State) : State * list Event :=
  (initializeState s,
   [Hw "cli"; Hw "setupEINT"; Hw "setupSerial"; Hw "startSerial";
    Hw "setupUltrasonic"; Hw "setupColour"]
   ++ setupClaw
   ++ [Hw "enablePullups"; Hw "sei"]).

(** The two blocks that close [loop]: stop once the bound is passed. *)
Definition checkDist (s : State) : State * list Event :=
  if 0 <? deltaDist s then
    match dir s with
    | FORWARD =>
        if newDist s <? forwardDist s
        then stop (set_newDist 0 (set_deltaDist 0 s)) else (s, [])
    | BACKWARD =>
        if newDist s <? reverseDist s
        then stop (set_newDist 0 (set_deltaDist 0 s)) else (s, [])
    | STOP => stop (set_newDist 0 (set_deltaDist 0 s))
    | _ => (s, [])
    end
  else (s, []).

Definition checkTicks (s : State) : State * list Event :=
  if 0 <? deltaTicks s then
    match dir s with
    | LEFT =>
        if targetTicks s <=? leftReverseTicksTurns s
        then stop (set_targetTicks 0 (set_deltaTicks 0 s)) else (s, [])
    | RIGHT =>
        if targetTicks s <=? rightReverseTicksTurns s
        then stop (set_targetTicks 0 (set_deltaTicks 0 s)) else (s, [])
    | STOP => stop (set_targetTicks 0 (set_deltaTicks 0 s))
    | _ => (s, [])
    end
  else (s, []).

(** One pass of [loop], given what its [readPacket] call returns. *)
Definition loop (env : Sensors) (rd : TResult * TPacket) (s : State)
  : option (State * list Event) :=
  '(s, ev) ← match rd.1 with
             | PACKET_OK => handlePacket env rd.2 s
             | PACKET_BAD => Some (s, sendBadPacket)
             | PACKET_CHECKSUM_BAD => Some (s, sendBadChecksum)
             | PACKET_INCOMPLETE => Some (s, [])
             end;
  let '(s, ev1) := checkDist s in
  let '(s, ev2) := checkTicks s in
  Some (s, ev ++ ev1 ++ ev2).

(** Successive passes of [loop]. *)
Fixpoint loops (input : list (Sensors * (TResult * TPacket))) (s : State)
  : option (State * list Event) :=
  match input with
  | [] => Some (s, [])
  | (env, rd) :: rest =>
      '(s, ev) ← loop env rd s;
      '(s, ev') ← loops rest s;
      Some (s, ev ++ ev')
  end.

(** The Arduino runtime: [setup()] once, then [loop()] for ever.  [boot] is
    the state of the globals at power-up. *)
Definition session (boot : State)
    (input : list (Sensors * (TResult * TPacket)))
  : option (State * list Event) :=
  let '(s, ev) := setup boot in
  '(s, ev') ← loops input s;
  Some (s, ev ++ ev').

End Sketch.

(** Globals are zero-initialised; [dir0] is the enumerator of [TDirection]
    whose value is 0. *)
Definition power_up (dir0 : TDirection) : State :=
  mkState dir0 0 0 0 0 0 0 0 0 0 0 0 0 0 0 0 0.

(** *** Encoder interrupts between passes of [loop]

    [ISR(INT3_vect)] calls [leftISR] and [ISR(INT2_vect)] calls [rightISR].
    An execution is a sequence of steps: an interrupt, or one pass of [loop].
    An interrupt that arrives in the middle of a pass is not modelled. *)
Inductive Step :=
  | INT3_vect
  | INT2_vect
  | Pass (env : Sensors) (rd : TResult * TPacket).

Section Run.
Context `{K : Constants} `{F : FloatOps}.

Definition step (st : Step) (s : State) : option (State * list Event) :=
  match st with
  | INT3_vect => Some (leftISR s, [])
  | INT2_vect => Some (rightISR s, [])
  | Pass env rd => loop env rd s
  end.

Fixpoint run (steps : list Step) (s : State) : option (State * list Event) :=
  match steps with
  | [] => Some (s, [])
  | st :: rest =>
      '(s, ev) ← step st s;
      '(s, ev') ← run rest s;
      Some (s, ev ++ ev')
  end.

End Run.

End Alex.

(** ** The operator console *)

Module Client.

(** Compile-time facts of the operator's machine that the sources at hand do
    not fix: the packet-type byte of [netconstants.h] and the size of a
    [const char *]. *)
Class Host := {
  NET_COMMAND_PACKET : Z;
  sizeof_char_ptr : nat
}.

(** An LP64 machine, with the command byte set to 3; used to evaluate the
    definitions on concrete inputs. *)
Definition sample_host : Host :=
  {| NET_COMMAND_PACKET := 3; sizeof_char_ptr := 8 |}.

Definition DEFAULT_DIST : Z := 5.
Definition DEFAULT_POWER : Z := 50.
Definition TURNING_POWER : Z := 100.
Definition DEFAULT_ANG : Z := 90.

(** What the console does to the outside world.  [SslWrite buffer count] is
    the call [sslWrite(conn, buffer, count)]: [buffer] is the array the
    pointer designates, [count] the number of bytes asked to be written. *)
Inductive Event :=
  | Printf (format : string) (args : list Z)
  | SslWrite (buffer : list Z) (count : nat)
  | StopClient
  | ExitThread.

(** The value of a character constant. *)
Definition char (c : ascii) : Z := Z.of_N (N_of_ascii c).

Definition handleStatus (buffer : list Z) : list Event :=
  let data (i : nat) := read_int32 buffer (1 + 4 * i) in
  [Printf "\n ------- ALEX STATUS REPORT ------- \n\n" [];
   Printf "Left Forward Ticks:\t\t%d\n" [data 0%nat];
   Printf "Right Forward Ticks:\t\t%d\n" [data 1%nat];
   Printf "Left Reverse Ticks:\t\t%d\n" [data 2%nat];
   Printf "Right Reverse Ticks:\t\t%d\n" [data 3%nat];
   Printf "Left Forward Ticks Turns:\t%d\n" [data 4%nat];
   Printf "Right Forward Ticks Turns:\t%d\n" [data 5%nat];
   Printf "Left Reverse Ticks Turns:\t%d\n" [data 6%nat];
   Printf "Right Reverse Ticks Turns:\t%d\n" [data 7%nat];
   Printf "Forward Distance:\t\t%d\n" [data 8%nat];
   Printf "Reverse Distance:\t\t%d\n" [data 9%nat];
   Printf "\n---------------------------------------\n\n" []].

Section Console.
Context `{H : Host}.

(** [sendData(conn, buffer, len)].  [c] is the value [sslWrite] returns when
    it is called; the result is the new value of [networkActive].  Inside the
    function [buffer] is a pointer, so [sizeof(buffer)] is the size of a
    pointer. *)
Definition sendData (buffer : list Z) (len : Z) (c : Z) (networkActive : Z)
  : Z * list Event :=
  let out := [Printf "\nSENDING %d BYTES DATA\n\n" [len]] in
  if networkActive =? 0 then (networkActive, out)
  else ((if 0 <? c then 1 else 0), out ++ [SslWrite buffer sizeof_char_ptr]).

(** The ten bytes of [buffer] once a case of the switch has filled it. *)
Definition fill (code : Z) (params0 params1 : Z) : list Z :=
  [NET_COMMAND_PACKET; code] ++ le32 params0 ++ le32 params1.

Definition sizeof_buffer : Z := 10.

(** The body of [writerThread]'s loop for the keystroke [ch]: the new
    [networkActive], the new [quit] and the events. *)
Definition writerBody (ch : ascii) (c : Z) (networkActive : Z)
  : Z * bool * list Event :=
  let prompt :=
    Printf "Command (f=forward, b=reverse, l=turn left, r=turn right, s=stop, c=clear stats, g=get stats q=exit)\n" [] in
  let send code params0 params1 :=
    let '(na, ev) :=
      sendData (fill code params0 params1) sizeof_buffer c networkActive in
    (na, false, prompt :: ev) in
  match ch with
  | "f" => send (char "f") DEFAULT_DIST DEFAULT_POWER
  | "F" => send (char "F") DEFAULT_DIST DEFAULT_POWER
  | "b" => send (char "b") DEFAULT_DIST DEFAULT_POWER
  | "B" => send (char "B") DEFAULT_DIST DEFAULT_POWER
  | "l" => send (char "l") DEFAULT_ANG TURNING_POWER
  | "L" => send (char "L") DEFAULT_ANG TURNING_POWER
  | "r" => send (char "r") DEFAULT_ANG TURNING_POWER
  | "R" => send (char "R") DEFAULT_ANG TURNING_POWER
  | "h" => send (char "h") 0 0
  | "v" => send (char "u") 0 0
  | "t" => send (char "m") 0 0
  | "s" | "S" | "c" | "C" | "g" | "G" => send (char ch) 0 0
  | "q" | "Q" => (networkActive, true, [prompt])
  | _ => (networkActive, false, [prompt; Printf "BAD COMMAND\n" []])
  end%char.

(** The loop [while(!quit)] over the keystrokes typed, each paired with the
    value an [sslWrite] issued for it returns.  The last component tells
    whether the loop was left. *)
Fixpoint writerLoop (input : list (ascii * Z)) (networkActive : Z)
  : Z * list Event * bool :=
  match input with
  | [] => (networkActive, [], false)
  | (ch, c) :: rest =>
      let '(na, quit, ev) := writerBody ch c networkActive in
      if quit then (na, ev, true)
      else
        let '(na', ev', finished) := writerLoop rest na in
        (na', ev ++ ev', finished)
  end.

Definition writerThread (input : list (ascii * Z)) (networkActive : Z)
  : Z * list Event * bool :=
  let '(na, ev, finished) := writerLoop input networkActive in
  if finished
  then (na, ev ++ [Printf "Exiting keyboard thread\n" []; StopClient; ExitThread], true)
  else (na, ev, false).

End Console.

(** The key bindings as the design describes them: for each recognised key
    the command byte it sends and its fixed default parameters. *)
Definition key_defaults : list (ascii * (ascii * Z * Z)) :=
  [("f", ("f", 5, 50)); ("F", ("F", 5, 50));
   ("b", ("b", 5, 50)); ("B", ("B", 5, 50));
   ("l", ("l", 90, 100)); ("L", ("L", 90, 100));
   ("r", ("r", 90, 100)); ("R", ("R", 90, 100));
   ("s", ("s", 0, 0)); ("S", ("S", 0, 0));
   ("c", ("c", 0, 0)); ("C", ("C", 0, 0));
   ("g", ("g", 0, 0)); ("G", ("G", 0, 0));
   ("h", ("h", 0, 0)); ("v", ("u", 0, 0)); ("t", ("m", 0, 0))]%char.

Definition quit_keys : list ascii := ["q"; "Q"]%char.

(** *** The inbound side *)

(** The other packet-type bytes of [netconstants.h], left open like
    [NET_COMMAND_PACKET]. *)
Class Net := {
  NET_ERROR_PACKET : Z;
  NET_STATUS_PACKET : Z;
  NET_MESSAGE_PACKET : Z;
  NET_COLOUR_PACKET : Z;
  NET_ULTRASONIC_PACKET : Z
}.

Definition sample_net : Net := {|
  NET_ERROR_PACKET := 0;
  NET_STATUS_PACKET := 1;
  NET_MESSAGE_PACKET := 2;
  NET_COLOUR_PACKET := 4;
  NET_ULTRASONIC_PACKET := 5
|}.

(** [buffer[i]], a [char]. *)
Definition char_at (buffer : list Z) (i : nat) : Z := nth i buffer 0.

Definition handleColour (buffer : list Z) : list Event :=
  let data (i : nat) := read_int32 buffer (1 + 4 * i) in
  [Printf "\n Colour detected:\n" [];
   Printf "RGB %d: %d\n" [0; data 0%nat];
   Printf "RGB %d: %d\n" [1; data 1%nat];
   Printf "RGB %d: %d\n" [2; data 2%nat];
   if data 3%nat =? 0 then Printf "Colour is red\n" []
   else if data 3%nat =? 1 then Printf "Colour is green\n" []
   else Printf "Colour is white\n" []].

Definition handleUltrasonic (buffer : list Z) : list Event :=
  let data (i : nat) := read_int32 buffer (1 + 4 * i) in
  [Printf "\n Ultrasonic distance: %dcm\n" [data 0%nat]].

(** The characters a [%s] conversion prints: those before the first NUL. *)
Fixpoint c_string (chars : list Z) : list Z :=
  match chars with
  | [] => []
  | c :: rest => if c =? 0 then [] else c :: c_string rest
  end.

(** For [handleMessage] the argument list of the event holds the characters
    that [%s] prints from [&buffer[1]]. *)
Definition handleMessage (buffer : list Z) : list Event :=
  [Printf "MESSAGE FROM ALEX: %s\n" (c_string (drop 1 buffer))].

Definition handleCommand (buffer : list Z) : list Event := [].

Section Inbound.
Context `{K : Constants} `{H : Host} `{N : Net}.

Definition handleError (buffer : list Z) : list Event :=
  let code := char_at buffer 1 in
  if code =? RESP_OK then [Printf "Command / Status OK\n" []]
  else if code =? RESP_BAD_PACKET then [Printf "BAD MAGIC NUMBER FROM ARDUINO\n" []]
  else if code =? RESP_BAD_CHECKSUM then [Printf "BAD CHECKSUM FROM ARDUINO\n" []]
  else if code =? RESP_BAD_COMMAND then [Printf "PI SENT BAD COMMAND TO ARDUINO\n" []]
  else if code =? RESP_BAD_RESPONSE then [Printf "PI GOT BAD RESPONSE FROM ARDUINO\n" []]
  else [Printf "PI IS CONFUSED!\n" []].

Definition handleNetwork (buffer : list Z) (len : Z) : list Event :=
  let type := char_at buffer 0 in
  if type =? NET_ERROR_PACKET then handleError buffer
  else if type =? NET_STATUS_PACKET then handleStatus buffer
  else if type =? NET_COLOUR_PACKET then handleColour buffer
  else if type =? NET_ULTRASONIC_PACKET then handleUltrasonic buffer
  else if type =? NET_MESSAGE_PACKET then handleMessage buffer
  else if type =? NET_COMMAND_PACKET then handleCommand buffer
  else [].



End Inbound.

(** *** Keyboard input *)

(** [eof_char] is the character, if the host has one, whose [char] value
    compares equal to [EOF]: character 255 where [char] is signed, none where
    it is unsigned.  Standard input is the list of characters typed so far;
    its end is not the end of the file. *)
Class Stdio := {
  eof_char : option ascii
}.

Definition sample_stdio : Stdio := {| eof_char := Some "255"%char |}.

Definition newline : ascii := "010"%char.

Section Keyboard.
Context `{IO : Stdio}.

Definition is_eof (c : ascii) : bool :=
  match eof_char with
  | Some e => Ascii.eqb c e
  | None => false
  end.

(** [flushInput]: what is left of standard input afterwards. *)
Fixpoint flushInput (stdin : list ascii) : list ascii :=
  match stdin with
  | [] => []
  | c :: rest =>
      if Ascii.eqb c newline then rest
      else if is_eof c then rest
      else flushInput rest
  end.

(** The characters that the successive [scanf("%c", &ch); flushInput();] of
    [writerThread] store in [ch]. *)
Fixpoint keystrokes_within (passes : nat) (stdin : list ascii) : list ascii :=
  match passes with
  | O => []
  | S passes =>
      match stdin with
      | [] => []
      | ch :: rest => ch :: keystrokes_within passes (flushInput rest)
      end
  end.

Definition keystrokes (stdin : list ascii) : list ascii :=
  keystrokes_within (length stdin) stdin.

End Keyboard.

End Client.

(** ** Notions used in the statements *)

(** The five case labels of [handlePacket]'s switch. *)
Definition packet_types `{Constants} : list Z :=
  [PACKET_TYPE_COMMAND; PACKET_TYPE_RESPONSE; PACKET_TYPE_ERROR;
   PACKET_TYPE_MESSAGE; PACKET_TYPE_HELLO].

(** The counters of each wheel, in the order forward, reverse, forward
    turns, reverse turns. *)
Definition left_counters (s : Alex.State) : list Z :=
  [Alex.leftForwardTicks s; Alex.leftReverseTicks s;
   Alex.leftForwardTicksTurns s; Alex.leftReverseTicksTurns s].

Definition right_counters (s : Alex.State) : list Z :=
  [Alex.rightForwardTicks s; Alex.rightReverseTicks s;
   Alex.rightForwardTicksTurns s; Alex.rightReverseTicksTurns s].

(** All twelve counters that [clearCounters] assigns. *)
Definition all_counters (s : Alex.State) : list Z :=
  left_counters s ++ right_counters s
  ++ [Alex.leftRevs s; Alex.rightRevs s; Alex.forwardDist s; Alex.reverseDist s].

(** How many counters differ between two readings. *)
Definition changed (before after : list Z) : nat :=
  length (List.filter (fun '(a, b) => negb (a =? b)) (combine before after)).

(** The handshake as the design words it: the reply each frame read before
    the HELLO elicits. *)
Definition handshake_reply `{Constants} (frame : TResult * TPacket)
  : list Alex.Event :=
  match frame.1 with
  | PACKET_OK =>
      [Alex.Sent (mkPacket PACKET_TYPE_ERROR RESP_BAD_RESPONSE unassigned)]
  | PACKET_CHECKSUM_BAD =>
      [Alex.Sent (mkPacket PACKET_TYPE_ERROR RESP_BAD_CHECKSUM unassigned)]
  | PACKET_BAD =>
      [Alex.Sent (mkPacket PACKET_TYPE_ERROR RESP_BAD_PACKET unassigned)]
  | PACKET_INCOMPLETE => []
  end.

(** A well-formed HELLO: decoded, with type PACKET_TYPE_HELLO. *)
Definition is_hello `{Constants} (frame : TResult * TPacket) : bool :=
  match frame.1 with
  | PACKET_OK => packetType frame.2 =? PACKET_TYPE_HELLO
  | _ => false
  end.

(** An OK acknowledgment on the wire. *)
Definition is_ok `{Constants} (e : Alex.Event) : bool :=
  match e with
  | Alex.Sent p => (packetType p =? PACKET_TYPE_RESPONSE) && (command p =? RESP_OK)
  | _ => false
  end.

(** The floating-point formulas evaluated in exact arithmetic, with
    [alexCirc] taken as 92.4 cm; used to evaluate the definitions on concrete
    inputs. *)
Definition sample_floatops : Alex.FloatOps := {|
  Alex.computeDeltaTicks := fun ang => ulong ((ang * 924 * 4) / (3600 * 18));
  Alex.ticksToDist := fun t => ulong ((t * 18) / 4);
  Alex.min_index := fun _ _ _ => 0
|}.

Definition sample_sensors : Alex.Sensors :=
  Alex.mkSensors (fun _ _ => 200) 17.

(** A state of the device in the middle of a run, with direction [d]. *)
Definition running_state (d : TDirection) : Alex.State :=
  Alex.mkState d 11 12 13 14 15 16 17 18 19 20 21 22 0 0 0 0.

(** Every global of the sketch holds a value of its type [unsigned long]. *)
Definition in_range (s : Alex.State) : Prop :=
  Forall (fun z => 0 <= z < 2 ^ 32)
    (all_counters s
     ++ [Alex.deltaDist s; Alex.newDist s; Alex.deltaTicks s; Alex.targetTicks s]).

(** The floating-point routines return an [unsigned long]. *)
Definition float_results_in_range `{Alex.FloatOps} : Prop :=
  (forall ang, 0 <= Alex.computeDeltaTicks ang < 2 ^ 32)
  /\ (forall t, 0 <= Alex.ticksToDist t < 2 ^ 32).

(** The packets the main loop may put on the wire: an OK, a status, colour
    or distance response, or one of three errors, always with sixteen
    parameter slots. *)
Definition loop_packet `{Constants} (e : Alex.Event) : Prop :=
  match e with
  | Alex.Sent p =>
      length (params p) = MAX_PARAMS
      /\ ((packetType p = PACKET_TYPE_RESPONSE
           /\ command p ∈ [RESP_OK; RESP_STATUS; RESP_COLOUR; RESP_ULTRASONIC])
          \/ (packetType p = PACKET_TYPE_ERROR
              /\ command p ∈ [RESP_BAD_PACKET; RESP_BAD_CHECKSUM; RESP_BAD_COMMAND]))
  | _ => True
  end.

(** The packets the handshake may put on the wire. *)
Definition handshake_packet `{Constants} (e : Alex.Event) : Prop :=
  match e with
  | Alex.Sent p =>
      (packetType p = PACKET_TYPE_RESPONSE /\ command p = RESP_OK)
      \/ (packetType p = PACKET_TYPE_ERROR
          /\ command p ∈ [RESP_BAD_PACKET; RESP_BAD_CHECKSUM; RESP_BAD_RESPONSE])
  | _ => False
  end.

(** A frame that [readPacket] reports as still incomplete. *)
Definition incomplete (frame : TResult * TPacket) : bool :=
  match frame.1 with
  | PACKET_INCOMPLETE => true
  | _ => false
  end.


Definition is_quit (ch : ascii) : bool :=
  Ascii.eqb ch "q" || Ascii.eqb ch "Q".

(** ** Proof tools *)

(** Splitting [NoDup] of a list of case labels into the inequalities between
    its members. *)
Ltac labels_distinct :=
  repeat match goal with
    | D : NoDup (_ :: _) |- _ =>
        apply NoDup_cons in D; destruct D as [? D]
    | D : NoDup [] |- _ => clear D
    | D : _ ∉ _ :: _ |- _ =>
        apply not_elem_of_cons in D; destruct D as [? D]
    | D : _ ∉ [] |- _ => clear D
    end.

(** Deciding the tests of a cascade of comparisons. *)
Ltac cascade :=
  repeat match goal with
    | |- context [ ?a =? ?b ] =>
        destruct (Z.eqb_spec a b); try congruence
    end.

(** Settling a decidable closed statement by evaluation. *)
Ltac by_evaluation := apply (bool_decide_unpack _); vm_compute; exact I.

(** ** Properties *)

Section MachineIntegers.

Lemma ulong_range z : 0 <= ulong z < 2 ^ 32.
Proof. unfold ulong. apply Z.mod_pos_bound. lia. Qed.

Lemma ulong_small z : 0 <= z < 2 ^ 32 -> ulong z = z.
Proof. intros. unfold ulong. apply Z.mod_small. lia. Qed.

Lemma incr_changes z : Alex.incr z <> z.
Proof.
  unfold Alex.incr, ulong. intros E.
  assert (0 <= z < 2 ^ 32) by (rewrite <- E; apply Z.mod_pos_bound; lia).
  destruct (Z.eq_dec z (2 ^ 32 - 1)) as [->|].
  - vm_compute in E. discriminate.
  - rewrite Z.mod_small in E by lia. lia.
Qed.

Lemma float_of_long_0 : float_of_long 0 = 0.
Proof. reflexivity. Qed.

Lemma float_of_long_exact n : Z.abs n < 2 ^ 24 -> float_of_long n = n.
Proof.
  intros. unfold float_of_long.
  destruct (Z.ltb_spec (Z.abs n) (2 ^ 24)); [reflexivity | lia].
Qed.

Lemma float_of_long_pos n : 0 < n -> 0 < float_of_long n.
Proof.
  intros P. unfold float_of_long. rewrite Z.abs_eq by lia.
  destruct (Z.ltb_spec n (2 ^ 24)) as [|B]; [assumption|].
  rewrite Z.sgn_pos by assumption.
  assert (L : 24 <= Z.log2 n) by (apply Z.log2_le_pow2; lia).
  set (e := Z.log2 n - 23) in *.
  assert (E : 0 < 2 ^ e) by (apply Z.pow_pos_nonneg; lia).
  assert (Q : 1 <= n / 2 ^ e).
  { apply Z.div_le_lower_bound; [assumption|].
    rewrite Z.mul_1_r.
    transitivity (2 ^ Z.log2 n); [apply Z.pow_le_mono_r; lia|].
    apply Z.log2_spec. assumption. }
  repeat match goal with |- context [if ?c then _ else _] => destruct c end; nia.
Qed.

End MachineIntegers.

Section Device.
Context `{K : Constants} `{F : Alex.FloatOps}.

Lemma loops_cons env rd rest (s : Alex.State) :
  Alex.loops ((env, rd) :: rest) s
  = '(s1, ev) ← Alex.loop env rd s;
    '(s2, ev') ← Alex.loops rest s1;
    Some (s2, ev ++ ev').
Proof. reflexivity. Qed.

Lemma loop_ok env packet (s : Alex.State) :
  Alex.loop env (PACKET_OK, packet) s
  = '(s0, ev) ← Alex.handlePacket env packet s;
    let '(s1, ev1) := Alex.checkDist s0 in
    let '(s2, ev2) := Alex.checkTicks s1 in
    Some (s2, ev ++ ev1 ++ ev2).
Proof. reflexivity. Qed.

(** C8. Handling a COMMAND_CLEAR_STATS packet acknowledges it and leaves all
    twelve counters (eight tick counters, two revolution counters, two
    distances) at zero, whatever the packet's first parameter is:
    [clearOneCounter] ignores its argument and runs [clearCounters], so two
    such packets lead to the same state. *)
Theorem C8_clear_stats_resets_all
    (env : Alex.Sensors) (cmd cmd' : TPacket) (s : Alex.State) :
  NoDup command_codes ->
  decoded cmd -> decoded cmd' ->
  command cmd = COMMAND_CLEAR_STATS -> command cmd' = COMMAND_CLEAR_STATS ->
  (forall which, Alex.clearOneCounter which s = Alex.clearCounters s)
  /\ Alex.handleCommand env cmd s = Some (Alex.clearCounters s, Alex.sendOK)
  /\ all_counters (Alex.clearCounters s) = replicate 12 0
  /\ Alex.handleCommand env cmd' s = Alex.handleCommand env cmd s.
Proof.
  intros D [L A] [L' A'] E E'.
  assert (P : forall c, decoded c -> exists v, Alex.param c 0 = Some v).
  { intros c [Lc Ac]. unfold Alex.param.
    destruct (params c) as [|o ps]; [discriminate|].
    apply Forall_cons in Ac as [[v ->] _]. exists v. reflexivity. }
  destruct (P cmd) as [v Hv]; [split; assumption|].
  destruct (P cmd') as [v' Hv']; [split; assumption|].
  unfold command_codes in D. labels_distinct.
  assert (R : forall c, command c = COMMAND_CLEAR_STATS ->
                forall w, Alex.param c 0 = Some w ->
                Alex.handleCommand env c s
                = Some (Alex.clearCounters s, Alex.sendOK)).
  { intros c Ec w Hw. unfold Alex.handleCommand. rewrite Ec, Hw.
    cascade. reflexivity. }
  repeat split.
  - eapply R; eassumption.
  - rewrite (R cmd E v Hv), (R cmd' E' v' Hv'). reflexivity.
Qed.

(** C9 (as amended). While the direction is FORWARD, BACKWARD, LEFT or RIGHT
    a left-wheel tick advances exactly one left-wheel counter, the one of
    that direction, and while it is STOP it advances none.  A right-wheel
    tick falls through the cases of [rightISR]: with FORWARD all four
    right-wheel counters advance by one, with BACKWARD three, with LEFT two,
    with RIGHT one, with STOP none.  A counter that advances changes. *)
Theorem C9_isr_counters (s : Alex.State) :
  left_counters (Alex.leftISR s)
  = match Alex.dir s with
    | FORWARD =>
        [Alex.incr (Alex.leftForwardTicks s); Alex.leftReverseTicks s;
         Alex.leftForwardTicksTurns s; Alex.leftReverseTicksTurns s]
    | BACKWARD =>
        [Alex.leftForwardTicks s; Alex.incr (Alex.leftReverseTicks s);
         Alex.leftForwardTicksTurns s; Alex.leftReverseTicksTurns s]
    | LEFT =>
        [Alex.leftForwardTicks s; Alex.leftReverseTicks s;
         Alex.leftForwardTicksTurns s; Alex.incr (Alex.leftReverseTicksTurns s)]
    | RIGHT =>
        [Alex.leftForwardTicks s; Alex.leftReverseTicks s;
         Alex.incr (Alex.leftForwardTicksTurns s); Alex.leftReverseTicksTurns s]
    | STOP => left_counters s
    end
  /\ changed (left_counters s) (left_counters (Alex.leftISR s))
     = match Alex.dir s with STOP => 0%nat | _ => 1%nat end
  /\ right_counters (Alex.rightISR s)
     = match Alex.dir s with
       | FORWARD => map Alex.incr (right_counters s)
       | BACKWARD =>
           [Alex.rightForwardTicks s; Alex.incr (Alex.rightReverseTicks s);
            Alex.incr (Alex.rightForwardTicksTurns s);
            Alex.incr (Alex.rightReverseTicksTurns s)]
       | LEFT =>
           [Alex.rightForwardTicks s; Alex.rightReverseTicks s;
            Alex.incr (Alex.rightForwardTicksTurns s);
            Alex.incr (Alex.rightReverseTicksTurns s)]
       | RIGHT =>
           [Alex.rightForwardTicks s; Alex.rightReverseTicks s;
            Alex.rightForwardTicksTurns s;
            Alex.incr (Alex.rightReverseTicksTurns s)]
       | STOP => right_counters s
       end
  /\ changed (right_counters s) (right_counters (Alex.rightISR s))
     = match Alex.dir s with
       | FORWARD => 4%nat
       | BACKWARD => 3%nat
       | LEFT => 2%nat
       | RIGHT => 1%nat
       | STOP => 0%nat
       end.
Proof.
  assert (N : forall z, (z =? Alex.incr z) = false).
  { intros z. apply Z.eqb_neq. intros E. symmetry in E.
    exact (incr_changes z E). }
  destruct s as [d lf rf rr lr rft lft rrt lrt lrev rrev fd rd dd nd dt tt].
  unfold changed, left_counters, right_counters, Alex.leftISR, Alex.rightISR.
  destruct d; cbn -[Alex.incr Z.eqb]; rewrite ?N, ?Z.eqb_refl;
    repeat split; reflexivity.
Qed.

(** C10. A decoded packet whose type is HELLO, RESPONSE, ERROR or MESSAGE is
    dropped by [handlePacket]: no reply is sent, nothing is actuated and the
    state of the device is the one before. *)
Theorem C10_non_command_discarded
    (env : Alex.Sensors) (packet : TPacket) (s : Alex.State) :
  NoDup packet_types ->
  packetType packet ∈ [PACKET_TYPE_HELLO; PACKET_TYPE_RESPONSE;
                       PACKET_TYPE_ERROR; PACKET_TYPE_MESSAGE] ->
  Alex.handlePacket env packet s = Some (s, []).
Proof.
  intros D T. unfold packet_types in D. labels_distinct.
  unfold Alex.handlePacket.
  repeat (apply elem_of_cons in T; destruct T as [T|T]);
    [..|by apply elem_of_nil in T]; rewrite T; cascade; reflexivity.
Qed.

(** C3. A COMMAND packet whose code is none of the twelve case labels makes
    the dispatcher send one ERROR packet with code RESP_BAD_COMMAND and do
    nothing else: no actuation event, the state unchanged.  The pass of
    [loop] that reads it ends normally and the following passes run. *)
Theorem C3_unknown_command_bad_command
    (env : Alex.Sensors) (cmd : TPacket) (s : Alex.State) :
  command cmd ∉ command_codes ->
  Alex.handleCommand env cmd s
  = Some (s, [Alex.Sent (mkPacket PACKET_TYPE_ERROR RESP_BAD_COMMAND unassigned)])
  /\ (packetType cmd = PACKET_TYPE_COMMAND ->
      Alex.handlePacket env cmd s
      = Some (s, [Alex.Sent (mkPacket PACKET_TYPE_ERROR RESP_BAD_COMMAND unassigned)])
      /\ forall rest,
           Alex.loops ((env, (PACKET_OK, cmd)) :: rest) s
           = let '(s1, ev1) := Alex.checkDist s in
             let '(s2, ev2) := Alex.checkTicks s1 in
             '(s', ev') ← Alex.loops rest s2;
             Some (s', Alex.Sent (mkPacket PACKET_TYPE_ERROR RESP_BAD_COMMAND
                                    unassigned) :: ev1 ++ ev2 ++ ev')).
Proof.
  intros U. unfold command_codes in U. labels_distinct.
  assert (HC : Alex.handleCommand env cmd s
               = Some (s, [Alex.Sent (mkPacket PACKET_TYPE_ERROR
                                        RESP_BAD_COMMAND unassigned)])).
  { unfold Alex.handleCommand. cascade. reflexivity. }
  split; [exact HC|]. intros T.
  assert (HP : Alex.handlePacket env cmd s
               = Some (s, [Alex.Sent (mkPacket PACKET_TYPE_ERROR
                                        RESP_BAD_COMMAND unassigned)])).
  { unfold Alex.handlePacket. rewrite T, Z.eqb_refl. exact HC. }
  split; [exact HP|]. intros rest.
  rewrite loops_cons, loop_ok, HP. cbn [mbind option_bind].
  destruct (Alex.checkDist s) as [s1 ev1].
  destruct (Alex.checkTicks s1) as [s2 ev2]. cbn [mbind option_bind].
  destruct (Alex.loops rest s2) as [[s' ev']|]; cbn [mbind option_bind];
    [rewrite <- !app_assoc|]; reflexivity.
Qed.

(** C7. A movement routine called with target 0 sets its bound from the one
    sentinel 9999999; called with a positive target it sets it from the
    target: [forward] and [reverse] store the distance and add it to the
    current distance counter, [left] and [right] store the angle converted
    to ticks and add it to the current turn-tick counter. *)
Theorem C7_motion_bounds (target speed : Z) (s : Alex.State) :
  0 < target ->
  ( Alex.deltaDist (Alex.forward 0 speed s).1 = 9999999
    /\ Alex.newDist (Alex.forward 0 speed s).1 = ulong (Alex.forwardDist s + 9999999)
    /\ Alex.deltaDist (Alex.reverse 0 speed s).1 = 9999999
    /\ Alex.newDist (Alex.reverse 0 speed s).1 = ulong (Alex.reverseDist s + 9999999)
    /\ Alex.deltaTicks (Alex.left 0 speed s).1 = 9999999
    /\ Alex.targetTicks (Alex.left 0 speed s).1
       = ulong (Alex.leftReverseTicksTurns s + 9999999)
    /\ Alex.deltaTicks (Alex.right 0 speed s).1 = 9999999
    /\ Alex.targetTicks (Alex.right 0 speed s).1
       = ulong (Alex.rightReverseTicksTurns s + 9999999) )
  /\ ( Alex.deltaDist (Alex.forward target speed s).1 = ulong target
       /\ Alex.newDist (Alex.forward target speed s).1
          = ulong (Alex.forwardDist s + ulong target)
       /\ Alex.deltaDist (Alex.reverse target speed s).1 = ulong target
       /\ Alex.newDist (Alex.reverse target speed s).1
          = ulong (Alex.reverseDist s + ulong target)
       /\ Alex.deltaTicks (Alex.left target speed s).1
          = Alex.computeDeltaTicks target
       /\ Alex.targetTicks (Alex.left target speed s).1
          = ulong (Alex.leftReverseTicksTurns s + Alex.computeDeltaTicks target)
       /\ Alex.deltaTicks (Alex.right target speed s).1
          = Alex.computeDeltaTicks target
       /\ Alex.targetTicks (Alex.right target speed s).1
          = ulong (Alex.rightReverseTicksTurns s + Alex.computeDeltaTicks target)
       /\ (target < 2 ^ 32 -> ulong target = target) ).
Proof.
  intros P.
  unfold Alex.forward, Alex.reverse, Alex.left, Alex.right.
  destruct (Z.ltb_spec 0 target); [|lia].
  destruct (Z.eqb_spec target 0); [lia|].
  cbn -[ulong]. repeat split.
  intros. apply ulong_small. lia.
Qed.

Lemma waitForHello_waiting (pre : list (TResult * TPacket)) :
  Forall (fun f => is_hello f = false) pre ->
  Alex.waitForHello pre = (flat_map handshake_reply pre, None).
Proof.
  induction 1 as [|[result hello] pre N _ IH]; [reflexivity|].
  cbn [Alex.waitForHello flat_map]. unfold is_hello in N. cbn [fst snd] in N.
  destruct result; cbn [handshake_reply fst]; rewrite ?N, IH; reflexivity.
Qed.

Lemma waitForHello_exit (pre : list (TResult * TPacket)) hello rest :
  Forall (fun f => is_hello f = false) pre ->
  packetType hello = PACKET_TYPE_HELLO ->
  Alex.waitForHello (pre ++ (PACKET_OK, hello) :: rest)
  = (flat_map handshake_reply pre
     ++ [Alex.Sent (mkPacket PACKET_TYPE_RESPONSE RESP_OK unassigned)],
     Some rest).
Proof.
  intros N T. induction N as [|[result h] pre N _ IH].
  - cbn. rewrite T, Z.eqb_refl. reflexivity.
  - cbn [app Alex.waitForHello flat_map].
    unfold is_hello in N. cbn [fst snd] in N.
    destruct result; cbn [handshake_reply fst]; rewrite ?N, IH; reflexivity.
Qed.

Lemma waitForHello_exit_inv (input : list (TResult * TPacket)) ev rest :
  Alex.waitForHello input = (ev, Some rest) ->
  exists pre hello,
    input = pre ++ (PACKET_OK, hello) :: rest
    /\ packetType hello = PACKET_TYPE_HELLO
    /\ Forall (fun f => is_hello f = false) pre.
Proof.
  revert ev. induction input as [|[result h] input IH]; intros ev E.
  - discriminate.
  - cbn [Alex.waitForHello] in E.
    assert (G : forall ev', Alex.waitForHello input = (ev', Some rest) ->
                is_hello (result, h) = false ->
                exists pre hello,
                  (result, h) :: input = pre ++ (PACKET_OK, hello) :: rest
                  /\ packetType hello = PACKET_TYPE_HELLO
                  /\ Forall (fun f => is_hello f = false) pre).
    { intros ev' E' N. destruct (IH ev' E') as (pre & hello & -> & T & A).
      exists ((result, h) :: pre), hello. repeat split; [assumption|].
      constructor; assumption. }
    destruct result.
    + destruct (Z.eqb_spec (packetType h) PACKET_TYPE_HELLO) as [T|T].
      * injection E as _ <-. exists [], h. repeat split; [assumption|constructor].
      * destruct (Alex.waitForHello input) as [ev' out].
        injection E as _ ->. apply (G ev' eq_refl).
        unfold is_hello. cbn. apply Z.eqb_neq. assumption.
    + destruct (Alex.waitForHello input) as [ev' out].
      injection E as _ ->. apply (G ev' eq_refl). reflexivity.
    + destruct (Alex.waitForHello input) as [ev' out].
      injection E as _ ->. apply (G ev' eq_refl). reflexivity.
    + apply (G ev E). reflexivity.
Qed.

Lemma handshake_reply_not_ok (pre : list (TResult * TPacket)) :
  PACKET_TYPE_ERROR <> PACKET_TYPE_RESPONSE ->
  List.filter is_ok (flat_map handshake_reply pre) = [].
Proof.
  intros D. induction pre as [|[result h] pre IH]; [reflexivity|].
  cbn [flat_map]. rewrite List.filter_app, IH, app_nil_r.
  unfold handshake_reply. cbn [fst].
  destruct result; cbn [List.filter is_ok packetType]; try reflexivity;
    destruct (Z.eqb_spec PACKET_TYPE_ERROR PACKET_TYPE_RESPONSE);
    try contradiction; reflexivity.
Qed.

(** C4. [waitForHello] leaves its loop only on a decoded HELLO packet and
    then sends one OK.  Each frame read before that is answered and the loop
    goes on: a decoded packet of another type with RESP_BAD_RESPONSE, a
    checksum failure with RESP_BAD_CHECKSUM, a decode failure with
    RESP_BAD_PACKET (an incomplete read with nothing).  So when a HELLO
    follows finitely many such frames the loop exits, and the OK is the only
    OK in what was sent. *)
Theorem C4_handshake (pre : list (TResult * TPacket)) :
  NoDup packet_types ->
  Forall (fun f => is_hello f = false) pre ->
  Alex.waitForHello pre = (flat_map handshake_reply pre, None)
  /\ (forall hello rest,
        packetType hello = PACKET_TYPE_HELLO ->
        Alex.waitForHello (pre ++ (PACKET_OK, hello) :: rest)
        = (flat_map handshake_reply pre
           ++ [Alex.Sent (mkPacket PACKET_TYPE_RESPONSE RESP_OK unassigned)],
           Some rest)
        /\ length (List.filter is_ok (Alex.waitForHello
                                   (pre ++ (PACKET_OK, hello) :: rest)).1)
           = 1%nat)
  /\ (forall input ev rest,
        Alex.waitForHello input = (ev, Some rest) ->
        exists pre' hello,
          input = pre' ++ (PACKET_OK, hello) :: rest
          /\ packetType hello = PACKET_TYPE_HELLO
          /\ Forall (fun f => is_hello f = false) pre'
          /\ ev = flat_map handshake_reply pre'
                  ++ [Alex.Sent (mkPacket PACKET_TYPE_RESPONSE RESP_OK unassigned)]).
Proof.
  intros D N. unfold packet_types in D. labels_distinct.
  split; [apply waitForHello_waiting; assumption|]. split.
  - intros hello rest T. split; [apply waitForHello_exit; assumption|].
    rewrite (waitForHello_exit pre hello rest N T). cbn [fst].
    rewrite List.filter_app, handshake_reply_not_ok by congruence.
    cbn [List.filter is_ok packetType command app]. rewrite !Z.eqb_refl. reflexivity.
  - intros input ev rest E.
    destruct (waitForHello_exit_inv input ev rest E) as (pre' & hello & -> & T & A).
    exists pre', hello. repeat split; try assumption.
    rewrite (waitForHello_exit pre' hello rest A T) in E. congruence.
Qed.

(** C6. For each of the twelve command codes the dispatcher first sends the
    OK acknowledgment and then runs the routine of that command; for
    COMMAND_GET_STATS, COMMAND_COLOUR and COMMAND_ULTRASONIC the routine ends
    by sending a RESPONSE packet with the values read, so that packet
    follows the OK on the wire. *)
Theorem C6_ack_then_collaborator
    (env : Alex.Sensors) (cmd : TPacket) (s : Alex.State) (p0 p1 : Z) :
  NoDup command_codes ->
  Alex.param cmd 0 = Some p0 -> Alex.param cmd 1 = Some p1 ->
  let ok := Alex.Sent (mkPacket PACKET_TYPE_RESPONSE RESP_OK unassigned) in
  let d := float_of_long p0 in
  let v := float_of_long p1 in
  let r := int32 (Alex.readFrequency env false false) in
  let g := int32 (Alex.readFrequency env true true) in
  let b := int32 (Alex.readFrequency env false true) in
  (command cmd = COMMAND_FORWARD ->
     Alex.handleCommand env cmd s
     = Some ((Alex.forward d v s).1, [ok; Alex.Move v FORWARD]))
  /\ (command cmd = COMMAND_REVERSE ->
     Alex.handleCommand env cmd s
     = Some ((Alex.reverse d v s).1, [ok; Alex.Move v BACKWARD]))
  /\ (command cmd = COMMAND_TURN_RIGHT ->
     Alex.handleCommand env cmd s
     = Some ((Alex.right d v s).1, [ok; Alex.Move v RIGHT]))
  /\ (command cmd = COMMAND_TURN_LEFT ->
     Alex.handleCommand env cmd s
     = Some ((Alex.left d v s).1, [ok; Alex.Move v LEFT]))
  /\ (command cmd = COMMAND_STOP ->
     Alex.handleCommand env cmd s
     = Some (Alex.set_dir STOP s, [ok; Alex.Move 0 STOP]))
  /\ (command cmd = COMMAND_GET_STATS ->
     Alex.handleCommand env cmd s
     = Some (s, [ok;
                 Alex.Sent
                   (mkPacket PACKET_TYPE_RESPONSE RESP_STATUS
                      (map (fun c => Some (int32 c))
                         [Alex.leftForwardTicks s; Alex.rightForwardTicks s;
                          Alex.leftReverseTicks s; Alex.rightReverseTicks s;
                          Alex.leftForwardTicksTurns s;
                          Alex.rightForwardTicksTurns s;
                          Alex.leftReverseTicksTurns s;
                          Alex.rightReverseTicksTurns s;
                          Alex.forwardDist s; Alex.reverseDist s]
                       ++ replicate 6 None))]))
  /\ (command cmd = COMMAND_CLEAR_STATS ->
     Alex.handleCommand env cmd s = Some (Alex.clearCounters s, [ok]))
  /\ (command cmd = COMMAND_GRAB ->
     Alex.handleCommand env cmd s
     = Some (s, [ok; Alex.ServoWrite 1 40; Alex.ServoWrite 2 20]))
  /\ (command cmd = COMMAND_COLOUR ->
     Alex.handleCommand env cmd s
     = Some (s, [ok;
                 Alex.FrequencyRead false false; Alex.FrequencyRead true true;
                 Alex.FrequencyRead false true;
                 Alex.Sent
                   (mkPacket PACKET_TYPE_RESPONSE RESP_COLOUR
                      ([Some r; Some g; Some b;
                        Some (int32 (Alex.min_index r g b))]
                       ++ replicate 12 None))]))
  /\ (command cmd = COMMAND_ULTRASONIC ->
     Alex.handleCommand env cmd s
     = Some (s, [ok; Alex.UltrasonicRead;
                 Alex.Sent
                   (mkPacket PACKET_TYPE_RESPONSE RESP_ULTRASONIC
                      (Some (int32 (ulong (Alex.readUltrasonic env)))
                       :: replicate 15 None))]))
  /\ (command cmd = COMMAND_RELEASE ->
     Alex.handleCommand env cmd s
     = Some (s, [ok; Alex.ServoWrite 1 0; Alex.ServoWrite 2 75]))
  /\ (command cmd = COMMAND_MED ->
     Alex.handleCommand env cmd s
     = Some (s, [ok; Alex.ServoWrite 3 90; Alex.Delay 1500])).
Proof.
  intros D P0 P1. unfold command_codes in D. labels_distinct.
  cbv zeta.
  repeat split; intros E; unfold Alex.handleCommand; rewrite E, ?P0, ?P1;
    cascade; reflexivity.
Qed.

(** C1 (what the sketch does). [setup] does not run the handshake and [loop]
    hands every decoded COMMAND packet to [handleCommand]: a session whose
    very first frame is a forward command, with no HELLO ever received,
    acknowledges it and drives the motors. *)
Theorem C1_command_dispatched_without_hello
    (env : Alex.Sensors) (dir0 : TDirection) :
  let cmd := received PACKET_TYPE_COMMAND COMMAND_FORWARD [5; 50] in
  exists s,
    Alex.session (Alex.power_up dir0) [(env, (PACKET_OK, cmd))]
    = Some (s, (Alex.setup (Alex.power_up dir0)).2
               ++ [Alex.Sent (mkPacket PACKET_TYPE_RESPONSE RESP_OK unassigned);
                   Alex.Move 50 FORWARD])
    /\ Alex.dir s = FORWARD
    /\ Alex.deltaDist s = 5.
Proof.
  cbv zeta. unfold Alex.session. cbn [Alex.setup].
  rewrite loops_cons, loop_ok. unfold Alex.handlePacket, Alex.handleCommand.
  cbn [received packetType command]. rewrite !Z.eqb_refl.
  eexists. split; [vm_compute; reflexivity|]. split; reflexivity.
Qed.

End Device.

Section Wire.

Lemma int32_ulong z : int32 (ulong z) = int32 z.
Proof.
  unfold int32, ulong. f_equal.
  rewrite Z.add_mod_idemp_l by lia. reflexivity.
Qed.

Lemma le32_length z : length (le32 z) = 4%nat.
Proof. reflexivity. Qed.

Lemma le32_recombine z :
  byte_at (le32 z) 0 + 256 * byte_at (le32 z) 1
  + 65536 * byte_at (le32 z) 2 + 16777216 * byte_at (le32 z) 3
  = ulong z.
Proof.
  pose proof (ulong_range z) as R.
  unfold byte_at, le32. cbn [nth]. set (u := ulong z) in *.
  rewrite !Z.mod_mod by lia.
  change (2 ^ 32) with 4294967296 in R.
  pose proof (Z.div_mod u 256 ltac:(lia)).
  pose proof (Z.div_mod (u / 256) 256 ltac:(lia)).
  pose proof (Z.div_mod (u / 256 / 256) 256 ltac:(lia)).
  assert (u / 65536 = u / 256 / 256) as -> by (rewrite Z.div_div by lia; reflexivity).
  assert (u / 16777216 = u / 256 / 256 / 256) as ->
    by (rewrite !Z.div_div by lia; reflexivity).
  assert (0 <= u / 256 / 256 / 256 < 256).
  { split; [repeat apply Z.div_pos; lia|].
    repeat (apply Z.div_lt_upper_bound; [lia|]). lia. }
  rewrite (Z.mod_small (u / 256 / 256 / 256)) by lia.
  lia.
Qed.

(** The byte [k] of slot [i] in a buffer that holds the slots [vals] from
    offset 1 on. *)
Lemma slot_byte (vals : list Z) (i : nat) (v : Z) (ty : Z) (rest : list Z) (k : nat) :
  vals !! i = Some v -> (k < 4)%nat ->
  byte_at (ty :: flat_map le32 vals ++ rest) (1 + 4 * i + k) = byte_at (le32 v) k.
Proof.
  unfold byte_at. intros L Hk. f_equal.
  change (1 + 4 * i + k)%nat with (S (4 * i + k)). cbn [nth].
  revert vals L. induction i as [|i IH]; intros [|a vals] L; try discriminate.
  - cbn in L. injection L as ->. cbn [flat_map].
    rewrite <- app_assoc. rewrite app_nth1 by (rewrite le32_length; lia).
    reflexivity.
  - cbn in L. cbn [flat_map]. rewrite <- app_assoc.
    rewrite app_nth2 by (rewrite le32_length; lia).
    rewrite le32_length.
    replace (4 * S i + k - 4)%nat with (4 * i + k)%nat by lia.
    apply IH. assumption.
Qed.

Lemma read_slot (vals : list Z) (i : nat) (v : Z) (ty : Z) (rest : list Z) :
  vals !! i = Some v ->
  read_int32 (ty :: flat_map le32 vals ++ rest) (1 + 4 * i) = int32 v.
Proof.
  intros L. unfold read_int32.
  replace (1 + 4 * i)%nat with (1 + 4 * i + 0)%nat at 1 by lia.
  rewrite !(slot_byte vals i v ty rest) by (assumption || lia).
  rewrite le32_recombine. apply int32_ulong.
Qed.

End Wire.

Section Telemetry.
Context `{K : Constants}.

(** C5. [sendStatus] fills slots 0 to 7 with the eight tick counters (left
    forward, right forward, left reverse, right reverse, left forward turns,
    right forward turns, left reverse turns, right reverse turns), slot 8
    with the forward distance and slot 9 with the reverse distance; and
    [handleStatus], given a buffer that carries those slots from offset 1 on,
    prints each of them under the matching label, in the same order. *)
Theorem C5_status_order (s : Alex.State) (ty : Z) (rest : list Z) :
  let counters :=
    [Alex.leftForwardTicks s; Alex.rightForwardTicks s;
     Alex.leftReverseTicks s; Alex.rightReverseTicks s;
     Alex.leftForwardTicksTurns s; Alex.rightForwardTicksTurns s;
     Alex.leftReverseTicksTurns s; Alex.rightReverseTicksTurns s;
     Alex.forwardDist s; Alex.reverseDist s] in
  Alex.sendStatus s
  = [Alex.Sent
       (mkPacket PACKET_TYPE_RESPONSE RESP_STATUS
          (map (fun c => Some (int32 c)) counters ++ replicate 6 None))]
  /\ Client.handleStatus (ty :: flat_map le32 (map int32 counters) ++ rest)
     = [Client.Printf "\n ------- ALEX STATUS REPORT ------- \n\n" [];
        Client.Printf "Left Forward Ticks:\t\t%d\n" [int32 (Alex.leftForwardTicks s)];
        Client.Printf "Right Forward Ticks:\t\t%d\n" [int32 (Alex.rightForwardTicks s)];
        Client.Printf "Left Reverse Ticks:\t\t%d\n" [int32 (Alex.leftReverseTicks s)];
        Client.Printf "Right Reverse Ticks:\t\t%d\n" [int32 (Alex.rightReverseTicks s)];
        Client.Printf "Left Forward Ticks Turns:\t%d\n"
          [int32 (Alex.leftForwardTicksTurns s)];
        Client.Printf "Right Forward Ticks Turns:\t%d\n"
          [int32 (Alex.rightForwardTicksTurns s)];
        Client.Printf "Left Reverse Ticks Turns:\t%d\n"
          [int32 (Alex.leftReverseTicksTurns s)];
        Client.Printf "Right Reverse Ticks Turns:\t%d\n"
          [int32 (Alex.rightReverseTicksTurns s)];
        Client.Printf "Forward Distance:\t\t%d\n" [int32 (Alex.forwardDist s)];
        Client.Printf "Reverse Distance:\t\t%d\n" [int32 (Alex.reverseDist s)];
        Client.Printf "\n---------------------------------------\n\n" []].
Proof.
  cbv zeta. split; [reflexivity|].
  unfold Client.handleStatus.
  assert (I : forall z, int32 (int32 z) = int32 z).
  { intros z. unfold int32.
    replace ((z + 2 ^ 31) mod 2 ^ 32 - 2 ^ 31 + 2 ^ 31)
      with ((z + 2 ^ 31) mod 2 ^ 32) by lia.
    rewrite Z.mod_mod by lia. reflexivity. }
  repeat (erewrite read_slot by reflexivity). rewrite !I. reflexivity.
Qed.

End Telemetry.

Section Relay.
Context `{H : Client.Host}.

(** Whatever length it is given, [sendData] asks [sslWrite] for
    [sizeof_char_ptr] bytes. *)
Lemma sendData_count (buffer : list Z) (len c networkActive : Z) :
  networkActive <> 0 ->
  Client.sendData buffer len c networkActive
  = ((if 0 <? c then 1 else 0),
     [Client.Printf "\nSENDING %d BYTES DATA\n\n" [len];
      Client.SslWrite buffer Client.sizeof_char_ptr]).
Proof.
  intros A. unfold Client.sendData.
  destruct (Z.eqb_spec networkActive 0); [contradiction | reflexivity].
Qed.

(** C2 (as amended). For a recognised key the writer fills the ten-byte
    buffer with the command byte, the byte of the key's command and the two
    fixed default parameters, and passes it to [sendData]; with the session
    flag active [sendData] hands that buffer to one [sslWrite] call and the
    flag becomes the success of the write, with the flag inactive nothing is
    written.  On a quit key nothing is sent, the session flag keeps its
    value, and the thread ends through [stopClient]. *)
Theorem C2_writer_defaults
    (ch code : ascii) (params0 params1 : Z) (c networkActive : Z)
    (q : ascii) (later : list (ascii * Z)) :
  (ch, (code, params0, params1)) ∈ Client.key_defaults ->
  q ∈ Client.quit_keys ->
  let prompt :=
    Client.Printf "Command (f=forward, b=reverse, l=turn left, r=turn right, s=stop, c=clear stats, g=get stats q=exit)\n" [] in
  let buffer :=
    [Client.NET_COMMAND_PACKET; Client.char code] ++ le32 params0 ++ le32 params1 in
  length buffer = 10%nat
  /\ (networkActive <> 0 ->
      exists count,
        Client.writerBody ch c networkActive
        = ((if 0 <? c then 1 else 0), false,
           [prompt; Client.Printf "\nSENDING %d BYTES DATA\n\n" [10];
            Client.SslWrite buffer count]))
  /\ Client.writerBody ch c 0
     = (0, false, [prompt; Client.Printf "\nSENDING %d BYTES DATA\n\n" [10]])
  /\ Client.writerBody q c networkActive = (networkActive, true, [prompt])
  /\ Client.writerThread ((q, c) :: later) networkActive
     = (networkActive,
        [prompt; Client.Printf "Exiting keyboard thread\n" [];
         Client.StopClient; Client.ExitThread],
        true).
Proof.
  intros B Q. cbv zeta.
  assert (Q' : q = "q"%char \/ q = "Q"%char).
  { unfold Client.quit_keys in Q.
    repeat (apply elem_of_cons in Q; destruct Q as [Q|Q]); auto.
    by apply elem_of_nil in Q. }
  split; [reflexivity|].
  split; [|split; [|split]].
  - intros A. exists Client.sizeof_char_ptr.
    unfold Client.key_defaults in B.
    repeat (apply elem_of_cons in B; destruct B as [B|B]);
      [..|by apply elem_of_nil in B];
      injection B as -> -> -> ->;
      unfold Client.writerBody; rewrite sendData_count by assumption;
      reflexivity.
  - unfold Client.key_defaults in B.
    repeat (apply elem_of_cons in B; destruct B as [B|B]);
      [..|by apply elem_of_nil in B];
      injection B as -> -> -> ->; reflexivity.
  - destruct Q' as [-> | ->]; reflexivity.
  - destruct Q' as [-> | ->]; reflexivity.
Qed.

End Relay.

(** ** Evaluations on concrete inputs *)

Section Evaluations.

(** The truncation of the outbound packet: on the sample host the write asks
    for 8 of the 10 bytes of the forward command. *)
Example sendData_truncates :
  Client.writerBody (H := Client.sample_host) "f" 8 1
  = (1, false,
     [Client.Printf "Command (f=forward, b=reverse, l=turn left, r=turn right, s=stop, c=clear stats, g=get stats q=exit)\n" [];
      Client.Printf "\nSENDING %d BYTES DATA\n\n" [10];
      Client.SslWrite [3; 102; 5; 0; 0; 0; 50; 0; 0; 0] 8]).
Proof. reflexivity. Qed.

(** The claim C2 as first worded fails on a quit key: the session flag is
    still active when the writer thread has ended. *)
Lemma C2_quit_keeps_flag :
  let '(networkActive, ev, finished) :=
    Client.writerThread (H := Client.sample_host) [("q"%char, 0)] 1 in
  finished = true /\ networkActive <> 0
  /\ ev = [Client.Printf "Command (f=forward, b=reverse, l=turn left, r=turn right, s=stop, c=clear stats, g=get stats q=exit)\n" [];
           Client.Printf "Exiting keyboard thread\n" [];
           Client.StopClient; Client.ExitThread].
Proof. cbn. repeat split. discriminate. Qed.

(** The claim C9 as first worded fails while the direction is STOP: a
    left-wheel tick then advances no left-wheel counter. *)
Lemma C9_left_tick_while_stopped :
  Alex.dir (running_state STOP) = STOP
  /\ changed (left_counters (running_state STOP))
       (left_counters (Alex.leftISR (F := sample_floatops) (running_state STOP)))
     <> 1%nat.
Proof. split; [reflexivity | vm_compute; discriminate]. Qed.

(** C8 on the sample constants: two clear-stats packets with first
    parameters 7 and -3. *)
Lemma C8_clear_stats_witness :
  NoDup (command_codes (H := sample_constants))
  /\ Alex.handleCommand (K := sample_constants) (F := sample_floatops)
       sample_sensors (received 0 6 [-3]) (running_state FORWARD)
     = Alex.handleCommand (K := sample_constants) (F := sample_floatops)
         sample_sensors (received 0 6 [7]) (running_state FORWARD)
  /\ all_counters (Alex.clearCounters (running_state FORWARD)) = replicate 12 0.
Proof.
  assert (D : NoDup (command_codes (H := sample_constants))) by by_evaluation.
  assert (A : decoded (received 0 6 [7])).
  { split; [reflexivity|]. repeat constructor; eexists; reflexivity. }
  assert (B : decoded (received 0 6 [-3])).
  { split; [reflexivity|]. repeat constructor; eexists; reflexivity. }
  pose proof (C8_clear_stats_resets_all (K := sample_constants)
                (F := sample_floatops) sample_sensors (received 0 6 [7])
                (received 0 6 [-3]) (running_state FORWARD) D A B
                eq_refl eq_refl) as (_ & _ & Z & E).
  split; [exact D|]. split; [exact E | exact Z].
Defined.

(** C10 on the sample constants: a HELLO packet in the main loop. *)
Lemma C10_non_command_witness :
  Alex.handlePacket (K := sample_constants) (F := sample_floatops)
    sample_sensors (received 4 0 []) (running_state FORWARD)
  = Some (running_state FORWARD, []).
Proof.
  apply (C10_non_command_discarded (K := sample_constants)
           (F := sample_floatops)).
  - by_evaluation.
  - by_evaluation.
Defined.

(** C3 on the sample constants: command code 99. *)
Lemma C3_unknown_command_witness :
  Alex.handleCommand (K := sample_constants) (F := sample_floatops)
    sample_sensors (received 0 99 [5; 50]) (running_state FORWARD)
  = Some (running_state FORWARD, [Alex.Sent (mkPacket 2 4 unassigned)]).
Proof.
  apply (C3_unknown_command_bad_command (K := sample_constants)
           (F := sample_floatops)).
  by_evaluation.
Defined.

(** C7 at target 5 from a state whose forward distance is 21. *)
Lemma C7_motion_bounds_witness :
  0 < 5
  /\ Alex.deltaDist
       (Alex.forward 5 50 (running_state STOP)).1 = 5
  /\ Alex.newDist
       (Alex.forward 5 50 (running_state STOP)).1 = 26
  /\ Alex.deltaDist
       (Alex.forward 0 50 (running_state STOP)).1
     = 9999999.
Proof.
  assert (P : 0 < 5) by lia.
  pose proof (C7_motion_bounds (F := sample_floatops) 5 50
                (running_state STOP) P)
    as ((Z & _) & (D & N & _)).
  split; [exact P|]. split; [exact D|]. split; [exact N | exact Z].
Defined.

(** C4 on the sample constants: four frames, then a HELLO, then a command
    left for the main loop. *)
Lemma C4_handshake_witness :
  Alex.waitForHello (K := sample_constants)
    ([(PACKET_BAD, received 0 0 []); (PACKET_INCOMPLETE, received 0 0 []);
      (PACKET_OK, received 0 0 []); (PACKET_CHECKSUM_BAD, received 0 0 [])]
     ++ [(PACKET_OK, received 4 0 []); (PACKET_OK, received 0 4 [])])
  = ([Alex.Sent (mkPacket 2 2 unassigned); Alex.Sent (mkPacket 2 5 unassigned);
      Alex.Sent (mkPacket 2 3 unassigned); Alex.Sent (mkPacket 1 0 unassigned)],
     Some [(PACKET_OK, received 0 4 [])]).
Proof.
  assert (D : NoDup (packet_types (H := sample_constants))) by by_evaluation.
  assert (N : Forall (fun f => is_hello (H := sample_constants) f = false)
                [(PACKET_BAD, received 0 0 []);
                 (PACKET_INCOMPLETE, received 0 0 []);
                 (PACKET_OK, received 0 0 []);
                 (PACKET_CHECKSUM_BAD, received 0 0 [])])
    by (repeat constructor).
  pose proof (C4_handshake (K := sample_constants) _ D N) as (_ & E & _).
  exact (proj1 (E (received 4 0 []) [(PACKET_OK, received 0 4 [])] eq_refl)).
Defined.

(** C6 on the sample constants: a get-stats command. *)
Lemma C6_get_stats_witness :
  Alex.handleCommand (K := sample_constants) (F := sample_floatops)
    sample_sensors (received 0 5 [0; 0]) (running_state STOP)
  = Some (running_state STOP,
          [Alex.Sent (mkPacket 1 0 unassigned);
           Alex.Sent
             (mkPacket 1 1
                (map Some [11; 12; 14; 13; 16; 15; 18; 17; 21; 22]
                 ++ replicate 6 None))]).
Proof.
  assert (D : NoDup (command_codes (H := sample_constants))) by by_evaluation.
  pose proof (C6_ack_then_collaborator (K := sample_constants)
                (F := sample_floatops) sample_sensors (received 0 5 [0; 0])
                (running_state STOP) 0 0 D eq_refl eq_refl) as G.
  cbv zeta in G.
  destruct G as (_ & _ & _ & _ & _ & G & _).
  exact (G eq_refl).
Defined.

(** C2 (as amended) on the sample host: the keys l and Q. *)
Lemma C2_writer_defaults_witness :
  Client.writerBody (H := Client.sample_host) "l" 8 0
  = (0, false,
     [Client.Printf "Command (f=forward, b=reverse, l=turn left, r=turn right, s=stop, c=clear stats, g=get stats q=exit)\n" [];
      Client.Printf "\nSENDING %d BYTES DATA\n\n" [10]])
  /\ Client.writerBody (H := Client.sample_host) "Q" 8 1
     = (1, true,
        [Client.Printf "Command (f=forward, b=reverse, l=turn left, r=turn right, s=stop, c=clear stats, g=get stats q=exit)\n" []]).
Proof.
  assert (B : ("l"%char, ("l"%char, 90, 100)) ∈ Client.key_defaults)
    by (do 4 apply list_elem_of_further; apply list_elem_of_here).
  assert (Q : "Q"%char ∈ Client.quit_keys)
    by (apply list_elem_of_further, list_elem_of_here).
  pose proof (C2_writer_defaults (H := Client.sample_host)
                "l" "l" 90 100 8 1 "Q" [] B Q) as G.
  cbv zeta in G.
  destruct G as (_ & _ & S & T & _).
  split; [exact S | exact T].
Defined.

End Evaluations.

(** ** Further properties of the sketch *)

Section MoreDevice.
Context `{K : Constants} `{F : Alex.FloatOps}.

Lemma checkDist_cases (s : Alex.State) :
  Alex.checkDist s = (s, [])
  \/ (0 < Alex.deltaDist s
      /\ Alex.checkDist s
         = (Alex.set_dir STOP (Alex.set_newDist 0 (Alex.set_deltaDist 0 s)),
            [Alex.Move 0 STOP])).
Proof.
  unfold Alex.checkDist.
  destruct (Z.ltb_spec 0 (Alex.deltaDist s)); [|left; reflexivity].
  destruct (Alex.dir s);
    repeat match goal with
      | |- context [if ?c then _ else _] => destruct c
      end; auto.
Qed.

Lemma checkTicks_cases (s : Alex.State) :
  Alex.checkTicks s = (s, [])
  \/ (0 < Alex.deltaTicks s
      /\ Alex.checkTicks s
         = (Alex.set_dir STOP (Alex.set_targetTicks 0 (Alex.set_deltaTicks 0 s)),
            [Alex.Move 0 STOP])).
Proof.
  unfold Alex.checkTicks.
  destruct (Z.ltb_spec 0 (Alex.deltaTicks s)); [|left; reflexivity].
  destruct (Alex.dir s);
    repeat match goal with
      | |- context [if ?c then _ else _] => destruct c
      end; auto.
Qed.

(** Opening one pass of [loop]: the dispatch, then the two bound checks. *)
Lemma loop_inv env rd (s s' : Alex.State) ev :
  Alex.loop env rd s = Some (s', ev) ->
  exists s0 ev0,
    match rd.1 with
    | PACKET_OK => Alex.handlePacket env rd.2 s
    | PACKET_BAD => Some (s, Alex.sendBadPacket)
    | PACKET_CHECKSUM_BAD => Some (s, Alex.sendBadChecksum)
    | PACKET_INCOMPLETE => Some (s, [])
    end = Some (s0, ev0)
    /\ s' = (Alex.checkTicks (Alex.checkDist s0).1).1
    /\ ev = ev0 ++ (Alex.checkDist s0).2 ++ (Alex.checkTicks (Alex.checkDist s0).1).2.
Proof.
  unfold Alex.loop. intros E.
  destruct (match rd.1 with
            | PACKET_OK => Alex.handlePacket env rd.2 s
            | PACKET_BAD => Some (s, Alex.sendBadPacket)
            | PACKET_CHECKSUM_BAD => Some (s, Alex.sendBadChecksum)
            | PACKET_INCOMPLETE => Some (s, [])
            end) as [[s0 ev0]|]; [|discriminate].
  cbn [mbind option_bind] in E. exists s0, ev0.
  destruct (Alex.checkDist s0) as [s1 ev1]. cbn [fst snd].
  destruct (Alex.checkTicks s1) as [s2 ev2]. cbn [fst snd].
  injection E as <- <-. auto.
Qed.

(** X1. The handshake never actuates anything: whatever frames arrive,
    every event of [waitForHello] is a packet sent, either the OK or an
    error with code RESP_BAD_PACKET, RESP_BAD_CHECKSUM or
    RESP_BAD_RESPONSE. *)
Theorem handshake_only_replies (input : list (TResult * TPacket)) :
  Forall handshake_packet (Alex.waitForHello input).1.
Proof.
  induction input as [|[result hello] input IH]; [constructor|].
  cbn [Alex.waitForHello].
  assert (B : forall code,
             code ∈ [RESP_BAD_PACKET; RESP_BAD_CHECKSUM; RESP_BAD_RESPONSE] ->
             Forall handshake_packet
               (Alex.Sent (mkPacket PACKET_TYPE_ERROR code unassigned)
                :: (Alex.waitForHello input).1)).
  { intros code M. constructor; [|exact IH]. right. split; [reflexivity|exact M]. }
  destruct result.
  - destruct (packetType hello =? PACKET_TYPE_HELLO).
    + constructor; [|constructor]. left. split; reflexivity.
    + destruct (Alex.waitForHello input) as [ev out]. cbn [fst] in *.
      apply (B RESP_BAD_RESPONSE). do 2 apply list_elem_of_further.
      apply list_elem_of_here.
  - destruct (Alex.waitForHello input) as [ev out]. cbn [fst] in *.
    apply (B RESP_BAD_PACKET). apply list_elem_of_here.
  - destruct (Alex.waitForHello input) as [ev out]. cbn [fst] in *.
    apply (B RESP_BAD_CHECKSUM). apply list_elem_of_further, list_elem_of_here.
  - exact IH.
Qed.

(** X2. Incomplete reads are invisible to the peer during the handshake:
    dropping them from the input changes neither what [waitForHello] sends
    nor whether it exits, and the frames left over are the same up to
    incomplete reads. *)
Theorem handshake_ignores_incomplete (input : list (TResult * TPacket)) :
  let complete := List.filter (fun f => negb (incomplete f)) in
  (Alex.waitForHello (complete input)).1 = (Alex.waitForHello input).1
  /\ (Alex.waitForHello (complete input)).2
     = complete <$> (Alex.waitForHello input).2.
Proof.
  cbv zeta. induction input as [|[result hello] input [IH1 IH2]]; [split; reflexivity|].
  destruct result; cbn [List.filter incomplete fst negb Alex.waitForHello].
  - destruct (packetType hello =? PACKET_TYPE_HELLO); [split; reflexivity|].
    destruct (Alex.waitForHello input) as [ev out].
    destruct (Alex.waitForHello _) as [ev' out']. cbn [fst snd] in *.
    subst. split; reflexivity.
  - destruct (Alex.waitForHello input) as [ev out].
    destruct (Alex.waitForHello _) as [ev' out']. cbn [fst snd] in *.
    subst. split; reflexivity.
  - destruct (Alex.waitForHello input) as [ev out].
    destruct (Alex.waitForHello _) as [ev' out']. cbn [fst snd] in *.
    subst. split; reflexivity.
  - split; assumption.
Qed.





Lemma incr_ulong z : Alex.incr (ulong z) = ulong (z + 1).
Proof. unfold Alex.incr, ulong. apply Z.add_mod_idemp_l. lia. Qed.

(** Left-wheel ticks while driving forward. *)
Lemma leftISR_forward_ticks (k : nat) (s : Alex.State) :
  Alex.dir s = FORWARD ->
  Nat.iter (S k) Alex.leftISR s
  = Alex.set_forwardDist
      (Alex.ticksToDist (ulong (Alex.leftForwardTicks s + Z.of_nat (S k))))
      (Alex.set_leftForwardTicks
         (ulong (Alex.leftForwardTicks s + Z.of_nat (S k))) s).
Proof.
  destruct s as [d lf rf rr lr rft lft rrt lrt lrev rrev fd rd dd nd dt tt].
  cbn [Alex.dir Alex.leftForwardTicks]. intros ->.
  induction k as [|k IH].
  - reflexivity.
  - change (Nat.iter (S (S k)) Alex.leftISR ?x)
      with (Alex.leftISR (Nat.iter (S k) Alex.leftISR x)).
    rewrite IH. unfold Alex.leftISR. cbn -[ulong Z.of_nat Alex.incr].
    rewrite incr_ulong.
    replace (lf + Z.of_nat (S k) + 1) with (lf + Z.of_nat (S (S k))) by lia.
    reflexivity.
Qed.

(** X6. Driving to a target.  After [forward] with a positive distance and
    any number of left-wheel ticks, an idle pass of [loop] stops the motors
    exactly when the distance computed from the ticks is strictly greater
    than the start distance plus the target; otherwise it changes nothing.
    Reaching the bound exactly does not stop the robot. *)
Theorem forward_stops_past_bound
    env (p : TPacket) (dist speed : Z) (k : nat) (s : Alex.State) :
  0 < dist < 2 ^ 32 ->
  Alex.deltaTicks s <= 0 ->
  let s1 := (Alex.forward dist speed s).1 in
  let s2 := Nat.iter (S k) Alex.leftISR s1 in
  let travelled :=
    Alex.ticksToDist (ulong (Alex.leftForwardTicks s + Z.of_nat (S k))) in
  Alex.forwardDist s2 = travelled
  /\ Alex.newDist s2 = ulong (Alex.forwardDist s + dist)
  /\ Alex.loop env (PACKET_INCOMPLETE, p) s2
     = if Alex.newDist s2 <? travelled
       then Some (Alex.set_dir STOP
                    (Alex.set_newDist 0 (Alex.set_deltaDist 0 s2)),
                  [Alex.Move 0 STOP])
       else Some (s2, []).
Proof.
  intros R T. cbv zeta.
  rewrite leftISR_forward_ticks
    by (unfold Alex.forward; destruct (0 <? dist); reflexivity).
  destruct s as [d lf rf rr lr rft lft rrt lrt lrev rrev fd rd dd nd dt tt].
  cbn [Alex.deltaTicks] in T.
  unfold Alex.forward. destruct (Z.ltb_spec 0 dist); [|lia].
  cbn -[ulong Z.of_nat Z.ltb]. rewrite (ulong_small dist) by lia.
  split; [reflexivity|]. split; [reflexivity|].
  unfold Alex.loop, Alex.checkDist, Alex.checkTicks.
  cbn -[ulong Z.of_nat Z.ltb].
  destruct (Z.ltb_spec 0 dist); [|lia].
  destruct (ulong (fd + dist)
            <? Alex.ticksToDist (ulong (lf + Z.of_nat (S k))));
    cbn -[ulong Z.of_nat Z.ltb];
    rewrite (proj2 (Z.ltb_ge 0 dt) T); reflexivity.
Qed.

(** X7. The bound is an [unsigned long] sum and wraps.  When the current
    forward distance plus the stored distance reaches 2^32, the bound falls
    below the current distance and the first pass of [loop] after [forward]
    stops the motors, before any tick. *)
Theorem forward_bound_wraps
    env (p : TPacket) (dist speed : Z) (s : Alex.State) :
  0 <= Alex.forwardDist s < 2 ^ 32 ->
  Alex.deltaTicks s <= 0 ->
  let s1 := (Alex.forward dist speed s).1 in
  2 ^ 32 <= Alex.forwardDist s + Alex.deltaDist s1 ->
  Alex.newDist s1 < Alex.forwardDist s1
  /\ Alex.loop env (PACKET_INCOMPLETE, p) s1
     = Some (Alex.set_dir STOP
               (Alex.set_newDist 0 (Alex.set_deltaDist 0 s1)),
             [Alex.Move 0 STOP]).
Proof.
  intros R T. cbv zeta.
  destruct s as [d lf rf rr lr rft lft rrt lrt lrev rrev fd rd dd nd dt tt].
  cbn [Alex.deltaTicks Alex.forwardDist] in *.
  unfold Alex.forward.
  assert (W : forall x, 0 <= x < 2 ^ 32 -> 2 ^ 32 <= fd + x ->
                0 < x /\ ulong (fd + x) < fd).
  { intros x Hx Hw. split; [lia|]. unfold ulong.
    replace (fd + x) with (fd + x - 2 ^ 32 + 1 * 2 ^ 32) by lia.
    rewrite Z.mod_add by lia. rewrite Z.mod_small; lia. }
  destruct (Z.ltb_spec 0 dist) as [P|P]; cbn -[ulong Z.ltb]; intros O.
  - destruct (W (ulong dist) (ulong_range dist) O) as [P' L].
    split; [exact L|].
    unfold Alex.loop, Alex.checkDist, Alex.checkTicks. cbn -[ulong Z.ltb].
    rewrite (proj2 (Z.ltb_lt 0 (ulong dist)) P').
    rewrite (proj2 (Z.ltb_lt _ _) L). cbn -[ulong Z.ltb].
    rewrite (proj2 (Z.ltb_ge 0 dt) T). reflexivity.
  - destruct (W 9999999 ltac:(lia) O) as [P' L].
    split; [exact L|].
    unfold Alex.loop, Alex.checkDist, Alex.checkTicks. cbn -[ulong Z.ltb].
    change (0 <? 9999999) with true. cbn -[ulong Z.ltb].
    rewrite (proj2 (Z.ltb_lt _ _) L). cbn -[ulong Z.ltb].
    rewrite (proj2 (Z.ltb_ge 0 dt) T). reflexivity.
Qed.

(** X8. The two interrupt routines commute: when a left and a right tick
    arrive together the resulting state does not depend on which is served
    first. *)
Theorem isr_commute (s : Alex.State) :
  Alex.leftISR (Alex.rightISR s) = Alex.rightISR (Alex.leftISR s).
Proof.
  destruct s as [d lf rf rr lr rft lft rrt lrt lrev rrev fd rd dd nd dt tt].
  destruct d; reflexivity.
Qed.

(** X9. Distance is measured on the left wheel only.  A right tick changes
    neither distance; a left tick recomputes the forward distance from the
    left forward ticks while driving forward, the reverse distance from the
    left reverse ticks while driving backward, and leaves both alone while
    turning or stopped.  Neither routine touches the direction or the
    pending bounds. *)
Theorem distance_from_left_wheel (s : Alex.State) :
  Alex.forwardDist (Alex.rightISR s) = Alex.forwardDist s
  /\ Alex.reverseDist (Alex.rightISR s) = Alex.reverseDist s
  /\ Alex.forwardDist (Alex.leftISR s)
     = match Alex.dir s with
       | FORWARD => Alex.ticksToDist (Alex.incr (Alex.leftForwardTicks s))
       | _ => Alex.forwardDist s
       end
  /\ Alex.reverseDist (Alex.leftISR s)
     = match Alex.dir s with
       | BACKWARD => Alex.ticksToDist (Alex.incr (Alex.leftReverseTicks s))
       | _ => Alex.reverseDist s
       end
  /\ (forall isr, isr = Alex.leftISR \/ isr = Alex.rightISR ->
        Alex.dir (isr s) = Alex.dir s
        /\ Alex.deltaDist (isr s) = Alex.deltaDist s
        /\ Alex.newDist (isr s) = Alex.newDist s
        /\ Alex.deltaTicks (isr s) = Alex.deltaTicks s
        /\ Alex.targetTicks (isr s) = Alex.targetTicks s).
Proof.
  destruct s as [d lf rf rr lr rft lft rrt lrt lrev rrev fd rd dd nd dt tt].
  repeat split; try (destruct d; reflexivity);
    destruct H as [-> | ->]; destruct d; reflexivity.
Qed.

(** A property of the state that the assignments of the main loop keep is
    kept by a pass of [loop].  [Q] is what the property needs of a value
    stored in a pending bound. *)
Lemma loop_preserves (P : Alex.State -> Prop) (Q : Z -> Prop)
    env rd (s s' : Alex.State) ev :
  Q 0 -> Q 9999999 -> (forall z, Q (ulong z)) ->
  (forall ang, Q (Alex.computeDeltaTicks ang)) ->
  (forall v x, P x -> P (Alex.set_dir v x)) ->
  (forall v x, Q v -> P x -> P (Alex.set_deltaDist v x)) ->
  (forall v x, Q v -> P x -> P (Alex.set_newDist v x)) ->
  (forall v x, Q v -> P x -> P (Alex.set_deltaTicks v x)) ->
  (forall v x, Q v -> P x -> P (Alex.set_targetTicks v x)) ->
  (forall x, P x -> P (Alex.clearCounters x)) ->
  Alex.loop env rd s = Some (s', ev) ->
  P s -> P s'.
Proof.
  intros Q0 Q9 Qu Qc Pd Pdd Pnd Pdt Ptt Pc E I.
  apply loop_inv in E as (s0 & ev0 & E & -> & _).
  assert (I0 : P s0).
  { destruct rd as [result packet]. cbn [fst snd] in E.
    destruct result; try (injection E as <- _; exact I).
    unfold Alex.handlePacket in E.
    destruct (packetType packet =? PACKET_TYPE_COMMAND).
    - unfold Alex.handleCommand, Alex.forward, Alex.reverse, Alex.left,
        Alex.right, Alex.stop, Alex.clearOneCounter in E.
      repeat match type of E with
        | context [ ?a =? ?b ] => destruct (a =? b)
        end;
      repeat match type of E with
        | context [ Alex.param ?c ?i ] => destruct (Alex.param c i)
        end;
      cbn [mbind option_bind] in E; try discriminate E;
      repeat match type of E with
        | context [ if ?c then _ else _ ] => destruct c
        end;
      injection E as <- _; auto 10.
    - repeat match type of E with
        | context [if ?c then _ else _] => destruct c
        end; injection E as <- _; exact I. }
  assert (I1 : P (Alex.checkDist s0).1).
  { destruct (checkDist_cases s0) as [-> | [_ ->]]; cbn [fst]; auto. }
  destruct (checkTicks_cases (Alex.checkDist s0).1) as [-> | [_ ->]];
    cbn [fst]; auto.
Qed.

Ltac range_fields :=
  unfold in_range, all_counters, left_counters, right_counters in *;
  cbn -[ulong Z.pow] in *;
  repeat match goal with
    | R : Forall _ (_ :: _) |- _ => apply Forall_cons in R; destruct R as [? R]
    | R : Forall _ [] |- _ => clear R
    end;
  repeat (apply Forall_cons; split); try apply Forall_nil;
  try assumption; try apply ulong_range; try lia.

Lemma step_in_range (st : Alex.Step) (s s' : Alex.State) ev :
  float_results_in_range ->
  in_range s -> Alex.step st s = Some (s', ev) -> in_range s'.
Proof.
  intros [Fc Ft] I E. destruct st as [| |env rd]; cbn [Alex.step] in E.
  - injection E as <- _.
    destruct s as [d lf rf rr lr rft lft rrt lrt lrev rrev fd rd dd nd dt tt].
    unfold Alex.leftISR, Alex.incr.
    destruct d; range_fields; apply Ft.
  - injection E as <- _.
    destruct s as [d lf rf rr lr rft lft rrt lrt lrev rrev fd rd dd nd dt tt].
    unfold Alex.rightISR, Alex.rightISR_FORWARD, Alex.rightISR_BACKWARD,
      Alex.rightISR_LEFT, Alex.rightISR_RIGHT, Alex.incr.
    destruct d; range_fields.
  - revert E I.
    apply (loop_preserves in_range (fun v => 0 <= v < 2 ^ 32));
      try lia; try apply ulong_range; try exact Fc;
      intros; destruct x; range_fields.
Qed.

(** X10. Every global stays an [unsigned long].  From a state whose
    counters and bounds lie in [0, 2^32), any sequence of left ticks, right
    ticks and passes of [loop] leads to such a state: increments and bound
    sums wrap instead of leaving the range. *)
Theorem run_in_range (steps : list Alex.Step) (s s' : Alex.State) ev :
  float_results_in_range ->
  in_range s -> Alex.run steps s = Some (s', ev) -> in_range s'.
Proof.
  intros FR. revert s ev. induction steps as [|st steps IH]; intros s ev I E.
  - injection E as <- _. exact I.
  - cbn [Alex.run] in E.
    destruct (Alex.step st s) as [[s1 ev1]|] eqn:E1; [|discriminate].
    cbn [mbind option_bind] in E.
    destruct (Alex.run steps s1) as [[s2 ev2]|] eqn:E2; [|discriminate].
    injection E as <- _.
    eapply IH; [|exact E2]. eapply step_in_range; eassumption.
Qed.

(** X11. The revolution counters are dead: after [setup] no interrupt and
    no pass of [loop] ever advances [leftRevs] or [rightRevs]; both stay
    zero for the whole run. *)
Theorem revolutions_never_counted
    (steps : list Alex.Step) (boot s' : Alex.State) ev :
  Alex.run steps (Alex.setup boot).1 = Some (s', ev) ->
  Alex.leftRevs s' = 0 /\ Alex.rightRevs s' = 0.
Proof.
  set (P := fun x => Alex.leftRevs x = 0 /\ Alex.rightRevs x = 0).
  assert (I : P (Alex.setup boot).1) by (split; reflexivity).
  revert I. generalize (Alex.setup boot).1 as s. revert ev.
  induction steps as [|st steps IH]; intros ev s I E.
  - injection E as <- _. exact I.
  - cbn [Alex.run] in E.
    destruct (Alex.step st s) as [[s1 ev1]|] eqn:E1; [|discriminate].
    cbn [mbind option_bind] in E.
    destruct (Alex.run steps s1) as [[s2 ev2]|] eqn:E2; [|discriminate].
    injection E as <- _.
    apply (IH ev2 s1); [|exact E2].
    destruct st as [| |env rd]; cbn [Alex.step] in E1.
    + injection E1 as <- _. destruct s, dir; exact I.
    + injection E1 as <- _. destruct s, dir; exact I.
    + revert E1 I.
      apply (loop_preserves P (fun _ => True)); auto;
        intros; destruct x; try exact H0; try exact H; split; reflexivity.
Qed.

Ltac in_list :=
  repeat first [apply list_elem_of_here | apply list_elem_of_further].

Ltac packet_ok :=
  first
    [ exact I
    | split;
      [ reflexivity
      | first [ left; split; [reflexivity | in_list]
              | right; split; [reflexivity | in_list] ] ] ].

Lemma pass_packets env rd (s s' : Alex.State) ev :
  Alex.loop env rd s = Some (s', ev) -> Forall loop_packet ev.
Proof.
  intros E. apply loop_inv in E as (s0 & ev0 & E & _ & ->).
  apply Forall_app. split; [|apply Forall_app; split].
  - destruct rd as [result packet]. cbn [fst snd] in E.
    destruct result;
      try (injection E as _ <-; repeat constructor; packet_ok).
    unfold Alex.handlePacket in E.
    destruct (packetType packet =? PACKET_TYPE_COMMAND).
    + unfold Alex.handleCommand, Alex.forward, Alex.reverse, Alex.left,
        Alex.right, Alex.stop in E.
      repeat match type of E with
        | context [ ?a =? ?b ] => destruct (a =? b)
        end;
      repeat match type of E with
        | context [ Alex.param ?c ?i ] => destruct (Alex.param c i)
        end;
      cbn [mbind option_bind] in E; try discriminate E;
      injection E as _ <-;
      repeat (apply Forall_cons; split); try apply Forall_nil; packet_ok.
    + repeat match type of E with
        | context [if ?c then _ else _] => destruct c
        end; injection E as _ <-; constructor.
  - destruct (checkDist_cases s0) as [-> | [_ ->]]; repeat constructor.
  - destruct (checkTicks_cases (Alex.checkDist s0).1) as [-> | [_ ->]];
      repeat constructor.
Qed.

(** X12. What the main loop puts on the wire.  Every packet sent during any
    number of passes of [loop] has sixteen parameter slots and is either a
    RESPONSE with code RESP_OK, RESP_STATUS, RESP_COLOUR or RESP_ULTRASONIC,
    or an ERROR with code RESP_BAD_PACKET, RESP_BAD_CHECKSUM or
    RESP_BAD_COMMAND: the loop never sends RESP_BAD_RESPONSE, a HELLO, a
    COMMAND or a MESSAGE. *)
Theorem loop_packets
    (input : list (Alex.Sensors * (TResult * TPacket))) (s s' : Alex.State) ev :
  Alex.loops input s = Some (s', ev) -> Forall loop_packet ev.
Proof.
  revert s ev. induction input as [|[env rd] input IH]; intros s ev E.
  - injection E as _ <-. constructor.
  - rewrite loops_cons in E.
    destruct (Alex.loop env rd s) as [[s1 ev1]|] eqn:E1; [|discriminate].
    cbn [mbind option_bind] in E.
    destruct (Alex.loops input s1) as [[s2 ev2]|] eqn:E2; [|discriminate].
    injection E as <- <-. apply Forall_app. split.
    + eapply pass_packets; eassumption.
    + eapply IH; eassumption.
Qed.

(** The dispatcher looks at the command code and at parameter slots 0
    and 1 only: two packets that agree on these are handled alike, whatever
    their type byte and their slots 2 to 15 hold. *)
Theorem dispatch_reads_two_slots env (cmd cmd' : TPacket) (s : Alex.State) :
  command cmd = command cmd' ->
  params cmd !! 0%nat = params cmd' !! 0%nat ->
  params cmd !! 1%nat = params cmd' !! 1%nat ->
  Alex.handleCommand env cmd s = Alex.handleCommand env cmd' s.
Proof.
  intros C P0 P1. unfold Alex.handleCommand, Alex.param.
  rewrite C, P0, P1. reflexivity.
Qed.

Lemma decoded_params (p : TPacket) :
  decoded p -> exists v0 v1, Alex.param p 0 = Some v0 /\ Alex.param p 1 = Some v1.
Proof.
  intros [L A]. unfold Alex.param.
  destruct (params p) as [|o0 [|o1 ps]]; try discriminate.
  apply Forall_cons in A as [[v0 ->] A].
  apply Forall_cons in A as [[v1 ->] _].
  exists v0, v1. split; reflexivity.
Qed.

Lemma pass_defined env rd (s : Alex.State) :
  (rd.1 = PACKET_OK -> decoded rd.2) -> is_Some (Alex.loop env rd s).
Proof.
  intros D. unfold Alex.loop.
  assert (G : is_Some (match rd.1 with
                       | PACKET_OK => Alex.handlePacket env rd.2 s
                       | PACKET_BAD => Some (s, Alex.sendBadPacket)
                       | PACKET_CHECKSUM_BAD => Some (s, Alex.sendBadChecksum)
                       | PACKET_INCOMPLETE => Some (s, [])
                       end)).
  { destruct rd as [result packet]. cbn [fst snd] in *.
    destruct result; try (eexists; reflexivity).
    destruct (decoded_params packet (D eq_refl)) as (v0 & v1 & P0 & P1).
    unfold Alex.handlePacket, Alex.handleCommand. rewrite P0, P1.
    cbn [mbind option_bind].
    repeat match goal with
      | |- context [ ?a =? ?b ] => destruct (a =? b)
      end;
    repeat match goal with
      | |- context [ let '(_, _) := ?x in _ ] => destruct x
      end; eexists; reflexivity. }
  destruct G as [[s0 ev0] ->]. cbn [mbind option_bind].
  destruct (Alex.checkDist s0) as [s1 ev1].
  destruct (Alex.checkTicks s1) as [s2 ev2]. eexists; reflexivity.
Qed.

(** X13. The main loop never reads a parameter slot that holds no value:
    when every packet that [readPacket] reports as PACKET_OK is a decoded
    one, any number of passes of [loop] runs to the end. *)
Theorem loops_defined_on_decoded
    (input : list (Alex.Sensors * (TResult * TPacket))) (s : Alex.State) :
  Forall (fun i => i.2.1 = PACKET_OK -> decoded i.2.2) input ->
  is_Some (Alex.loops input s).
Proof.
  intros D. revert s. induction D as [|[env rd] input D _ IH]; intros s.
  - eexists; reflexivity.
  - rewrite loops_cons. cbn [fst snd] in D.
    destruct (pass_defined env rd s D) as [[s1 ev1] ->].
    cbn [mbind option_bind].
    destruct (IH s1) as [[s2 ev2] ->]. eexists; reflexivity.
Qed.

(** X14. Clearing the counters in the middle of a straight run does not end
    the run and does not move its bound: a clear-stats command received
    while driving forward or backward zeroes the counters, keeps the
    direction and the stored bound, and stops nothing, so the distance still
    to travel becomes the whole of [newDist]. *)
Theorem clear_stats_keeps_motion env (cmd : TPacket) (s : Alex.State) :
  NoDup command_codes ->
  decoded cmd ->
  packetType cmd = PACKET_TYPE_COMMAND ->
  command cmd = COMMAND_CLEAR_STATS ->
  Alex.dir s = FORWARD \/ Alex.dir s = BACKWARD ->
  0 <= Alex.newDist s ->
  Alex.loop env (PACKET_OK, cmd) s
  = Some (Alex.clearCounters s,
          [Alex.Sent (mkPacket PACKET_TYPE_RESPONSE RESP_OK unassigned)])
  /\ Alex.dir (Alex.clearCounters s) = Alex.dir s
  /\ Alex.deltaDist (Alex.clearCounters s) = Alex.deltaDist s
  /\ Alex.newDist (Alex.clearCounters s) = Alex.newDist s
  /\ Alex.forwardDist (Alex.clearCounters s) = 0
  /\ Alex.reverseDist (Alex.clearCounters s) = 0.
Proof.
  intros N D T E M B. unfold command_codes in N. labels_distinct.
  destruct (decoded_params cmd D) as (v0 & v1 & P0 & P1).
  split; [|repeat split].
  rewrite loop_ok.
  assert (HP : Alex.handlePacket env cmd s
               = Some (Alex.clearCounters s,
                       [Alex.Sent (mkPacket PACKET_TYPE_RESPONSE RESP_OK
                                     unassigned)])).
  { unfold Alex.handlePacket, Alex.handleCommand.
    rewrite T, Z.eqb_refl, E, P0. cascade. reflexivity. }
  rewrite HP. cbn [mbind option_bind].
  destruct s as [d lf rf rr lr rft lft rrt lrt lrev rrev fd rd dd nd dt tt].
  cbn [Alex.dir Alex.newDist] in *.
  assert (Z : (nd <? 0) = false) by (apply Z.ltb_ge; assumption).
  unfold Alex.checkDist, Alex.checkTicks, Alex.clearCounters.
  destruct M as [-> | ->]; cbn -[Z.ltb];
    destruct (0 <? dd); cbn -[Z.ltb]; rewrite ?Z; cbn -[Z.ltb];
    destruct (0 <? dt); reflexivity.
Qed.

End MoreDevice.

(** ** Further properties of the console and of the wire *)

Section MoreWire.

Lemma int32_idem z : int32 (int32 z) = int32 z.
Proof.
  unfold int32.
  replace ((z + 2 ^ 31) mod 2 ^ 32 - 2 ^ 31 + 2 ^ 31)
    with ((z + 2 ^ 31) mod 2 ^ 32) by lia.
  rewrite Z.mod_mod by lia. reflexivity.
Qed.

Lemma int32_small z : - 2 ^ 31 <= z < 2 ^ 31 -> int32 z = z.
Proof. intros R. unfold int32. rewrite Z.mod_small by lia. lia. Qed.

Lemma int32_large z : 2 ^ 31 <= z < 2 ^ 32 -> int32 z = z - 2 ^ 32.
Proof.
  intros R. unfold int32.
  replace (z + 2 ^ 31) with (z - 2 ^ 31 + 1 * 2 ^ 32) by lia.
  rewrite Z.mod_add by lia. rewrite Z.mod_small by lia. lia.
Qed.

(** X15. The 32-bit codec of the wire.  [le32] yields four bytes in
    [0, 255]; reading slot [i] of a buffer that carries the slots from
    offset 1 gives back the slot as a signed 32-bit value: the value itself
    when it fits, and the value minus 2^32 for an unsigned quantity from
    2^31 on, which is how a counter that large is displayed. *)
Theorem wire_round_trip (vals : list Z) (i : nat) (v ty : Z) (rest : list Z) :
  vals !! i = Some v ->
  Forall (fun b => 0 <= b < 256) (le32 v)
  /\ read_int32 (ty :: flat_map le32 vals ++ rest) (1 + 4 * i) = int32 v
  /\ (- 2 ^ 31 <= v < 2 ^ 31 -> int32 v = v)
  /\ (2 ^ 31 <= v < 2 ^ 32 -> int32 v = v - 2 ^ 32).
Proof.
  intros L. split; [|split; [|split]].
  - unfold le32. repeat (apply Forall_cons; split);
      try (apply Forall_nil; exact I); apply Z.mod_pos_bound; lia.
  - apply read_slot. exact L.
  - apply int32_small.
  - apply int32_large.
Qed.

End MoreWire.

Section MoreTelemetry.
Context `{K : Constants} `{F : Alex.FloatOps}.

(** X16. Colour telemetry agrees end to end.  [readColour] samples red,
    green and blue in that order and sends them in slots 0 to 2 with the
    index of the best match in slot 3; [handleColour], given a buffer that
    carries those slots from offset 1, prints the three readings in the same
    order and names the colour red for index 0, green for index 1 and white
    for any other index. *)
Theorem colour_round_trip (env : Alex.Sensors) (ty : Z) (rest : list Z) :
  let r := int32 (Alex.readFrequency env false false) in
  let g := int32 (Alex.readFrequency env true true) in
  let b := int32 (Alex.readFrequency env false true) in
  let index := int32 (Alex.min_index r g b) in
  Alex.readColour env
  = [Alex.FrequencyRead false false; Alex.FrequencyRead true true;
     Alex.FrequencyRead false true;
     Alex.Sent (mkPacket PACKET_TYPE_RESPONSE RESP_COLOUR
                  ([Some r; Some g; Some b; Some index] ++ replicate 12 None))]
  /\ Client.handleColour (ty :: flat_map le32 [r; g; b; index] ++ rest)
     = [Client.Printf "\n Colour detected:\n" [];
        Client.Printf "RGB %d: %d\n" [0; r];
        Client.Printf "RGB %d: %d\n" [1; g];
        Client.Printf "RGB %d: %d\n" [2; b];
        if index =? 0 then Client.Printf "Colour is red\n" []
        else if index =? 1 then Client.Printf "Colour is green\n" []
        else Client.Printf "Colour is white\n" []].
Proof.
  cbv zeta. split; [reflexivity|].
  unfold Client.handleColour.
  repeat (erewrite read_slot by reflexivity). rewrite !int32_idem. reflexivity.
Qed.

(** X17. Distance telemetry agrees end to end.  [sendDist] puts the reading
    in slot 0 of a RESP_ULTRASONIC response and [handleUltrasonic], given a
    buffer that carries that slot from offset 1, prints it; a reading below
    2^31 is printed as it was measured. *)
Theorem ultrasonic_round_trip (distance ty : Z) (rest : list Z) :
  Alex.sendDist distance
  = [Alex.Sent (mkPacket PACKET_TYPE_RESPONSE RESP_ULTRASONIC
                  (Some (int32 distance) :: replicate 15 None))]
  /\ Client.handleUltrasonic (ty :: flat_map le32 [int32 distance] ++ rest)
     = [Client.Printf "\n Ultrasonic distance: %dcm\n" [int32 distance]]
  /\ (0 <= distance < 2 ^ 31 -> int32 distance = distance).
Proof.
  split; [reflexivity|]. split.
  - unfold Client.handleUltrasonic.
    erewrite read_slot by reflexivity. rewrite int32_idem. reflexivity.
  - intros R. apply int32_small. lia.
Qed.

End MoreTelemetry.

Section MoreRelay.
Context `{H : Client.Host}.

(** The three shapes of the body of the writer's loop. *)
Lemma writerBody_shape (ch : ascii) (c networkActive : Z) :
  let prompt :=
    Client.Printf "Command (f=forward, b=reverse, l=turn left, r=turn right, s=stop, c=clear stats, g=get stats q=exit)\n" [] in
  (is_quit ch = true
   /\ Client.writerBody ch c networkActive = (networkActive, true, [prompt]))
  \/ (is_quit ch = false
      /\ Client.writerBody ch c networkActive
         = (networkActive, false, [prompt; Client.Printf "BAD COMMAND\n" []]))
  \/ (is_quit ch = false
      /\ exists code params0 params1,
           Client.writerBody ch c networkActive
           = let '(na, ev) :=
               Client.sendData (Client.fill code params0 params1)
                 Client.sizeof_buffer c networkActive in
             (na, false, prompt :: ev)).
Proof.
  cbv zeta.
  destruct ch as [[] [] [] [] [] [] [] []];
    first
      [ right; left; split; reflexivity
      | left; split; reflexivity
      | right; right; split; [reflexivity|];
        eexists _, _, _; reflexivity ].
Qed.

Lemma sendData_cases (buffer : list Z) (len c networkActive : Z) :
  (networkActive = 0
   /\ Client.sendData buffer len c networkActive
      = (0, [Client.Printf "\nSENDING %d BYTES DATA\n\n" [len]]))
  \/ (networkActive <> 0
      /\ Client.sendData buffer len c networkActive
         = ((if 0 <? c then 1 else 0),
            [Client.Printf "\nSENDING %d BYTES DATA\n\n" [len];
             Client.SslWrite buffer Client.sizeof_char_ptr])).
Proof.
  unfold Client.sendData.
  destruct (Z.eqb_spec networkActive 0) as [->|]; [left | right]; auto.
Qed.


(** X19. What the writer asks the connection to send.  In every run, each
    [sslWrite] is given a ten-byte buffer that starts with the command
    packet byte, and asks for [sizeof_char_ptr] bytes of it, the size of a
    pointer, not the ten bytes of the packet. *)
Theorem writer_requests (input : list (ascii * Z)) (networkActive : Z) :
  Forall
    (fun e =>
       match e with
       | Client.SslWrite buffer count =>
           length buffer = 10%nat
           /\ buffer !! 0%nat = Some Client.NET_COMMAND_PACKET
           /\ count = Client.sizeof_char_ptr
       | _ => True
       end)
    (Client.writerLoop input networkActive).1.2.
Proof.
  revert networkActive. induction input as [|[ch c] input IH]; intros na;
    [constructor|].
  cbn [Client.writerLoop].
  destruct (writerBody_shape ch c na)
    as [[_ ->] | [[_ ->] | [_ (code & p0 & p1 & ->)]]].
  - repeat constructor.
  - specialize (IH na).
    destruct (Client.writerLoop input na) as [[na' ev] fin]. cbn [fst snd] in *.
    repeat (constructor; [exact I|]). assumption.
  - destruct (sendData_cases (Client.fill code p0 p1) Client.sizeof_buffer c na)
      as [[_ ->] | [_ ->]].
    + specialize (IH 0).
      destruct (Client.writerLoop input 0) as [[na' ev] fin]. cbn [fst snd] in *.
      repeat (constructor; [exact I|]). assumption.
    + specialize (IH (if 0 <? c then 1 else 0)).
      destruct (Client.writerLoop input _) as [[na' ev] fin]. cbn [fst snd] in *.
      repeat (constructor; [exact I|]).
      constructor; [repeat split; reflexivity | assumption].
Qed.

Lemma writerBody_quit (ch : ascii) (c networkActive : Z) :
  (Client.writerBody ch c networkActive).1.2 = is_quit ch.
Proof.
  destruct (writerBody_shape ch c networkActive)
    as [[-> ->] | [[-> ->] | [-> (code & p0 & p1 & ->)]]]; try reflexivity.
  destruct (Client.sendData _ _ _ _). reflexivity.
Qed.

(** X20. The writer thread ends on a quit key and on nothing else.  Without
    a quit key in the input it never leaves its loop, even when every write
    fails; at the first quit key it ends, and the keys typed after it are
    not read. *)
Theorem writer_leaves_only_on_quit
    (pre post : list (ascii * Z)) (q : ascii) (c networkActive : Z) :
  Forall (fun k => is_quit k.1 = false) pre ->
  is_quit q = true ->
  (Client.writerThread pre networkActive).2 = false
  /\ (Client.writerThread (pre ++ (q, c) :: post) networkActive).2 = true
  /\ Client.writerThread (pre ++ (q, c) :: post) networkActive
     = Client.writerThread (pre ++ [(q, c)]) networkActive.
Proof.
  intros N Q.
  assert (L : forall na,
             (Client.writerLoop pre na).2 = false
             /\ (Client.writerLoop (pre ++ (q, c) :: post) na).2 = true
             /\ Client.writerLoop (pre ++ (q, c) :: post) na
                = Client.writerLoop (pre ++ [(q, c)]) na).
  { induction N as [|[ch x] pre N _ IH]; intros na.
    - cbn [app Client.writerLoop].
      pose proof (writerBody_quit q c na) as B. rewrite Q in B.
      destruct (Client.writerBody q c na) as [[na' fin] ev]. cbn [fst snd] in B.
      subst fin. repeat split.
    - cbn [app Client.writerLoop]. cbn [fst] in N.
      pose proof (writerBody_quit ch x na) as B. rewrite N in B.
      destruct (Client.writerBody ch x na) as [[na' fin] ev]. cbn [fst snd] in B.
      subst fin. destruct (IH na') as (A1 & A2 & A3). rewrite A3.
      destruct (Client.writerLoop pre na') as [[n1 e1] f1].
      destruct (Client.writerLoop (pre ++ [(q, c)]) na') as [[n2 e2] f2] eqn:E2.
      rewrite A3 in A2. cbn [fst snd] in *. subst. repeat split. }
  destruct (L networkActive) as (A1 & A2 & A3).
  unfold Client.writerThread. rewrite A3.
  rewrite A3 in A2.
  destruct (Client.writerLoop pre networkActive) as [[n1 e1] f1].
  destruct (Client.writerLoop (pre ++ [(q, c)]) networkActive) as [[n2 e2] f2].
  cbn [fst snd] in *. subst. repeat split.
Qed.

End MoreRelay.

Section MoreInbound.
Context `{K : Constants} `{H : Client.Host} `{N : Client.Net}.



End MoreInbound.

Section MoreKeyboard.
Context `{H : Client.Host} `{IO : Client.Stdio}.

Lemma flushInput_length (stdin : list ascii) :
  (length (Client.flushInput stdin) <= length stdin)%nat.
Proof.
  induction stdin as [|c rest IH]; [reflexivity|].
  cbn [Client.flushInput length].
  destruct (Ascii.eqb c Client.newline); [lia|].
  destruct (Client.is_eof c); lia.
Qed.

Lemma keystrokes_within_enough (n m : nat) (stdin : list ascii) :
  (length stdin <= n)%nat -> (length stdin <= m)%nat ->
  Client.keystrokes_within n stdin = Client.keystrokes_within m stdin.
Proof.
  revert m stdin. induction n as [|n IH]; intros m stdin Hn Hm.
  - destruct stdin; [|cbn in Hn; lia]. destruct m; reflexivity.
  - destruct stdin as [|ch rest]; [destruct m; reflexivity|].
    destruct m as [|m]; [cbn in Hm; lia|].
    cbn [Client.keystrokes_within length] in *. f_equal.
    pose proof (flushInput_length rest).
    apply IH; lia.
Qed.

Lemma keystrokes_cons (ch : ascii) (rest : list ascii) :
  Client.keystrokes (ch :: rest)
  = ch :: Client.keystrokes (Client.flushInput rest).
Proof.
  unfold Client.keystrokes. cbn [length Client.keystrokes_within]. f_equal.
  pose proof (flushInput_length rest).
  apply keystrokes_within_enough; lia.
Qed.

Lemma flushInput_line (line rest : list ascii) (stop : ascii) :
  Forall (fun c => Ascii.eqb c Client.newline = false
                   /\ Client.is_eof c = false) line ->
  Ascii.eqb stop Client.newline = true \/ Client.is_eof stop = true ->
  Client.flushInput (line ++ stop :: rest) = rest.
Proof.
  intros P S. induction P as [|c line [A B] _ IH].
  - cbn [app Client.flushInput].
    destruct S as [-> | ->]; [reflexivity|].
    destruct (Ascii.eqb stop Client.newline); reflexivity.
  - cbn [app Client.flushInput]. rewrite A, B. exact IH.
Qed.

(** X22. Only the first character of a line is a command.  The character
    that [scanf] stores is followed by a flush up to and including the next
    newline (or the character that compares equal to EOF), so the rest of
    the line is never interpreted.  The stored character may itself be a
    newline: an empty line is read as a key, answered with BAD COMMAND, and
    the whole line typed after it is thrown away. *)
Theorem keystrokes_per_line
    (ch stop : ascii) (line rest : list ascii) (c networkActive : Z) :
  Forall (fun x => Ascii.eqb x Client.newline = false
                   /\ Client.is_eof x = false) line ->
  Ascii.eqb stop Client.newline = true \/ Client.is_eof stop = true ->
  Client.keystrokes (ch :: line ++ stop :: rest)
  = ch :: Client.keystrokes rest
  /\ Client.keystrokes (Client.newline :: line ++ Client.newline :: rest)
     = Client.newline :: Client.keystrokes rest
  /\ Client.writerBody Client.newline c networkActive
     = (networkActive, false,
        [Client.Printf "Command (f=forward, b=reverse, l=turn left, r=turn right, s=stop, c=clear stats, g=get stats q=exit)\n" [];
         Client.Printf "BAD COMMAND\n" []]).
Proof.
  intros P S. split; [|split].
  - rewrite keystrokes_cons, (flushInput_line line rest stop P S). reflexivity.
  - rewrite keystrokes_cons, (flushInput_line line rest Client.newline P).
    + reflexivity.
    + left. reflexivity.
  - reflexivity.
Qed.

End MoreKeyboard.

Section MoreDispatch.
Context `{K : Constants} `{H : Client.Host} `{N : Client.Net}.

(** X23. Inbound packets the console does not know are dropped without a
    word: a buffer whose type byte is none of the six packet types prints
    nothing, and so does a command packet; an error packet whose code is
    none of the five known codes prints the confusion notice. *)
Theorem inbound_unknown_dropped (buffer : list Z) (len : Z) :
  NoDup [Client.NET_ERROR_PACKET; Client.NET_STATUS_PACKET;
         Client.NET_COLOUR_PACKET; Client.NET_ULTRASONIC_PACKET;
         Client.NET_MESSAGE_PACKET; Client.NET_COMMAND_PACKET] ->
  (Client.char_at buffer 0
     ∉ [Client.NET_ERROR_PACKET; Client.NET_STATUS_PACKET;
        Client.NET_COLOUR_PACKET; Client.NET_ULTRASONIC_PACKET;
        Client.NET_MESSAGE_PACKET; Client.NET_COMMAND_PACKET] ->
   Client.handleNetwork buffer len = [])
  /\ (Client.char_at buffer 0 = Client.NET_COMMAND_PACKET ->
      Client.handleNetwork buffer len = [])
  /\ (Client.char_at buffer 0 = Client.NET_ERROR_PACKET ->
      Client.char_at buffer 1
        ∉ [RESP_OK; RESP_BAD_PACKET; RESP_BAD_CHECKSUM; RESP_BAD_COMMAND;
           RESP_BAD_RESPONSE] ->
      Client.handleNetwork buffer len
      = [Client.Printf "PI IS CONFUSED!\n" []]).
Proof.
  intros D. labels_distinct. split; [|split].
  - intros U. labels_distinct. unfold Client.handleNetwork.
    cascade; reflexivity.
  - intros E. unfold Client.handleNetwork. rewrite E.
    cascade; reflexivity.
  - intros E U. labels_distinct.
    unfold Client.handleNetwork, Client.handleError. rewrite E, Z.eqb_refl.
    cascade; reflexivity.
Qed.

End MoreDispatch.

Section MoreTurns.
Context `{K : Constants} `{F : Alex.FloatOps}.

(** Left-wheel ticks while turning left. *)
Lemma leftISR_left_ticks (k : nat) (s : Alex.State) :
  Alex.dir s = LEFT ->
  Nat.iter (S k) Alex.leftISR s
  = Alex.set_leftReverseTicksTurns
      (ulong (Alex.leftReverseTicksTurns s + Z.of_nat (S k))) s.
Proof.
  destruct s as [d lf rf rr lr rft lft rrt lrt lrev rrev fd rd dd nd dt tt].
  cbn [Alex.dir Alex.leftReverseTicksTurns]. intros ->.
  induction k as [|k IH].
  - reflexivity.
  - change (Nat.iter (S (S k)) Alex.leftISR ?x)
      with (Alex.leftISR (Nat.iter (S k) Alex.leftISR x)).
    rewrite IH. unfold Alex.leftISR. cbn -[ulong Z.of_nat Alex.incr].
    rewrite incr_ulong.
    replace (lrt + Z.of_nat (S k) + 1) with (lrt + Z.of_nat (S (S k))) by lia.
    reflexivity.
Qed.

(** X24. Turning to a target.  After [left] with an angle that converts to a
    positive number of ticks and any number of left-wheel ticks, an idle
    pass of [loop] stops the motors exactly when the left reverse-turn
    counter has reached the start value plus the converted ticks; reaching
    the bound is enough, unlike for a straight run. *)
Theorem left_stops_at_target
    env (p : TPacket) (ang speed : Z) (k : nat) (s : Alex.State) :
  ang <> 0 ->
  0 < Alex.computeDeltaTicks ang ->
  let s1 := (Alex.left ang speed s).1 in
  let s2 := Nat.iter (S k) Alex.leftISR s1 in
  let turned := ulong (Alex.leftReverseTicksTurns s + Z.of_nat (S k)) in
  Alex.leftReverseTicksTurns s2 = turned
  /\ Alex.targetTicks s2
     = ulong (Alex.leftReverseTicksTurns s + Alex.computeDeltaTicks ang)
  /\ Alex.loop env (PACKET_INCOMPLETE, p) s2
     = if Alex.targetTicks s2 <=? turned
       then Some (Alex.set_dir STOP
                    (Alex.set_targetTicks 0 (Alex.set_deltaTicks 0 s2)),
                  [Alex.Move 0 STOP])
       else Some (s2, []).
Proof.
  intros A T. cbv zeta.
  rewrite leftISR_left_ticks
    by (unfold Alex.left; destruct (ang =? 0); reflexivity).
  destruct s as [d lf rf rr lr rft lft rrt lrt lrev rrev fd rd dd nd dt tt].
  unfold Alex.left. destruct (Z.eqb_spec ang 0); [contradiction|].
  cbn -[ulong Z.of_nat Z.ltb Z.leb].
  split; [reflexivity|]. split; [reflexivity|].
  unfold Alex.loop, Alex.checkDist, Alex.checkTicks.
  cbn -[ulong Z.of_nat Z.ltb Z.leb].
  destruct (0 <? dd); cbn -[ulong Z.of_nat Z.ltb Z.leb];
    rewrite (proj2 (Z.ltb_lt 0 _) T);
    destruct (ulong (lrt + Alex.computeDeltaTicks ang)
              <=? ulong (lrt + Z.of_nat (S k))); reflexivity.
Qed.

Lemma quiet_step_turning (st : Alex.Step) (s : Alex.State) :
  match st with
  | Alex.Pass _ rd => rd.1 = PACKET_INCOMPLETE
  | _ => True
  end ->
  Alex.dir s = LEFT -> Alex.deltaTicks s = 0 ->
  exists s', Alex.step st s = Some (s', [])
             /\ Alex.dir s' = LEFT /\ Alex.deltaTicks s' = 0.
Proof.
  destruct s as [d lf rf rr lr rft lft rrt lrt lrev rrev fd rd dd nd dt tt].
  cbn [Alex.dir Alex.deltaTicks]. intros Q -> ->.
  destruct st as [| |env [result packet]]; cbn [Alex.step].
  - eexists. repeat split.
  - eexists. repeat split.
  - cbn [fst] in Q. subst result.
    unfold Alex.loop, Alex.checkDist, Alex.checkTicks. cbn.
    destruct (0 <? dd); eexists; repeat split.
Qed.

(** X25. A turn too short to count never ends by itself.  When the angle
    converts to zero ticks, [left] leaves no turn bound pending, so however
    many ticks and idle passes of [loop] follow, the motors are never
    stopped and the direction stays LEFT: only a further command ends the
    turn. *)
Theorem short_turn_never_stops
    (ang speed : Z) (steps : list Alex.Step) (s : Alex.State) :
  ang <> 0 ->
  Alex.computeDeltaTicks ang = 0 ->
  Forall (fun st => match st with
                    | Alex.Pass _ rd => rd.1 = PACKET_INCOMPLETE
                    | _ => True
                    end) steps ->
  exists s',
    Alex.run steps (Alex.left ang speed s).1 = Some (s', [])
    /\ Alex.dir s' = LEFT.
Proof.
  intros A Z0 Q.
  assert (I : Alex.dir (Alex.left ang speed s).1 = LEFT
              /\ Alex.deltaTicks (Alex.left ang speed s).1 = 0).
  { unfold Alex.left. destruct (Z.eqb_spec ang 0); [contradiction|].
    split; [reflexivity | exact Z0]. }
  revert I. generalize (Alex.left ang speed s).1 as x.
  induction Q as [|st steps Q _ IH]; intros x [D T].
  - exists x. split; [reflexivity | exact D].
  - destruct (quiet_step_turning st x Q D T) as (x1 & E1 & D1 & T1).
    destruct (IH x1 (conj D1 T1)) as (x2 & E2 & D2).
    exists x2. split; [|exact D2].
    cbn [Alex.run]. rewrite E1. cbn [mbind option_bind]. rewrite E2.
    reflexivity.
Qed.

End MoreTurns.

(** ** Evaluations of the further properties *)

Section MoreEvaluations.




(** X6 at target 5 after three ticks: 14 left forward ticks make 63 cm,
    past the bound 26. *)
Lemma forward_stops_past_bound_witness :
  Alex.newDist
    (Nat.iter 3 (Alex.leftISR (F := sample_floatops))
       (Alex.forward 5 50 (running_state STOP)).1) = 26
  /\ Alex.forwardDist
       (Nat.iter 3 (Alex.leftISR (F := sample_floatops))
          (Alex.forward 5 50 (running_state STOP)).1) = 63.
Proof.
  assert (R : 0 < 5 < 2 ^ 32) by lia.
  assert (T : Alex.deltaTicks (running_state STOP) <= 0) by (cbn; lia).
  pose proof (forward_stops_past_bound (K := sample_constants)
                (F := sample_floatops) sample_sensors (received 0 0 [])
                5 50 2 (running_state STOP) R T) as G.
  cbv zeta in G. destruct G as (A & B & _).
  split; [exact B | exact A].
Defined.

(** X7 at a forward distance of 2^32 - 3 and target 5. *)
Lemma forward_bound_wraps_witness :
  Alex.newDist
    (Alex.forward 5 50 (Alex.set_forwardDist (2 ^ 32 - 3) (running_state STOP))).1
  < Alex.forwardDist
      (Alex.forward 5 50 (Alex.set_forwardDist (2 ^ 32 - 3) (running_state STOP))).1.
Proof.
  assert (R : 0 <= Alex.forwardDist
                     (Alex.set_forwardDist (2 ^ 32 - 3) (running_state STOP))
              < 2 ^ 32) by (cbn; lia).
  assert (T : Alex.deltaTicks
                (Alex.set_forwardDist (2 ^ 32 - 3) (running_state STOP)) <= 0)
    by (cbn; lia).
  pose proof (forward_bound_wraps (K := sample_constants)
                (F := sample_floatops) sample_sensors (received 0 0 [])
                5 50 (Alex.set_forwardDist (2 ^ 32 - 3) (running_state STOP))
                R T) as G.
  cbv zeta in G.
  assert (O : 2 ^ 32 <= Alex.forwardDist
                          (Alex.set_forwardDist (2 ^ 32 - 3) (running_state STOP))
                        + Alex.deltaDist
                            (Alex.forward 5 50
                               (Alex.set_forwardDist (2 ^ 32 - 3)
                                  (running_state STOP))).1)
    by (vm_compute; discriminate).
  exact (proj1 (G O)).
Defined.

(** X10 on a run of three steps from the running state. *)
Lemma run_in_range_witness :
  exists s',
    Alex.run (K := sample_constants) (F := sample_floatops)
      [Alex.INT3_vect; Alex.INT2_vect;
       Alex.Pass sample_sensors (PACKET_INCOMPLETE, received 0 0 [])]
      (running_state FORWARD)
    = Some (s', [])
    /\ in_range s'.
Proof.
  assert (FR : float_results_in_range (H := sample_floatops))
    by (split; intros; apply ulong_range).
  assert (I : in_range (running_state FORWARD))
    by (unfold in_range; cbn; repeat constructor; lia).
  eexists. split; [vm_compute; reflexivity|].
  apply (run_in_range (K := sample_constants) (F := sample_floatops)
           [Alex.INT3_vect; Alex.INT2_vect;
            Alex.Pass sample_sensors (PACKET_INCOMPLETE, received 0 0 [])]
           (running_state FORWARD) _ [] FR I).
  vm_compute. reflexivity.
Defined.

(** X11 on a run with ticks and a forward command after [setup]. *)
Lemma revolutions_never_counted_witness :
  exists s',
    Alex.run (K := sample_constants) (F := sample_floatops)
      [Alex.Pass sample_sensors (PACKET_OK, received 0 0 [5; 50]);
       Alex.INT3_vect; Alex.INT2_vect]
      (Alex.setup (running_state STOP)).1
    = Some (s', [Alex.Sent (mkPacket 1 0 unassigned); Alex.Move 50 FORWARD])
    /\ Alex.leftRevs s' = 0 /\ Alex.rightRevs s' = 0.
Proof.
  eexists. split; [reflexivity|].
  apply (revolutions_never_counted (K := sample_constants)
           (F := sample_floatops)
           [Alex.Pass sample_sensors (PACKET_OK, received 0 0 [5; 50]);
            Alex.INT3_vect; Alex.INT2_vect]
           (running_state STOP) _
           [Alex.Sent (mkPacket 1 0 unassigned); Alex.Move 50 FORWARD]).
  reflexivity.
Defined.

(** X12 on a bad frame followed by a distance query. *)
Lemma loop_packets_witness :
  Forall (loop_packet (H := sample_constants))
    [Alex.Sent (mkPacket 2 2 unassigned);
     Alex.Sent (mkPacket 1 0 unassigned);
     Alex.UltrasonicRead;
     Alex.Sent (mkPacket 1 7 (Some 17 :: replicate 15 None))].
Proof.
  apply (loop_packets (K := sample_constants) (F := sample_floatops)
           [(sample_sensors, (PACKET_BAD, received 0 0 []));
            (sample_sensors, (PACKET_OK, received 0 11 []))]
           (running_state STOP) (running_state STOP)).
  reflexivity.
Defined.

(** The same on two forward commands that differ in their type byte and in
    slot 5. *)
Lemma dispatch_reads_two_slots_witness :
  Alex.handleCommand (K := sample_constants) (F := sample_floatops)
    sample_sensors (received 0 0 [5; 50]) (running_state STOP)
  = Alex.handleCommand (K := sample_constants) (F := sample_floatops)
      sample_sensors (received 3 0 [5; 50; 0; 0; 0; 9]) (running_state STOP).
Proof.
  apply (dispatch_reads_two_slots (K := sample_constants)
           (F := sample_floatops)); reflexivity.
Defined.

(** X13 on a turn command followed by a checksum failure. *)
Lemma loops_defined_on_decoded_witness :
  is_Some
    (Alex.loops (K := sample_constants) (F := sample_floatops)
       [(sample_sensors, (PACKET_OK, received 0 2 [90; 100]));
        (sample_sensors, (PACKET_CHECKSUM_BAD, mkPacket 0 0 []))]
       (running_state STOP)).
Proof.
  apply (loops_defined_on_decoded (K := sample_constants)
           (F := sample_floatops)).
  constructor; [|constructor; [|constructor]].
  - intros _. split; [reflexivity|]. repeat constructor; eexists; reflexivity.
  - intros E. discriminate E.
Defined.

(** X14 on a clear-stats command received 21 cm into a run bounded at 26. *)
Lemma clear_stats_keeps_motion_witness :
  Alex.loop (K := sample_constants) (F := sample_floatops) sample_sensors
    (PACKET_OK, received 0 6 [0])
    (Alex.set_newDist 26 (Alex.set_deltaDist 5 (running_state FORWARD)))
  = Some (Alex.clearCounters
            (Alex.set_newDist 26 (Alex.set_deltaDist 5 (running_state FORWARD))),
          [Alex.Sent (mkPacket 1 0 unassigned)]).
Proof.
  assert (D : NoDup (command_codes (H := sample_constants))) by by_evaluation.
  assert (A : decoded (received 0 6 [0])).
  { split; [reflexivity|]. repeat constructor; eexists; reflexivity. }
  assert (B : 0 <= Alex.newDist
                     (Alex.set_newDist 26
                        (Alex.set_deltaDist 5 (running_state FORWARD))))
    by (cbn; lia).
  exact (proj1 (clear_stats_keeps_motion (K := sample_constants)
                  (F := sample_floatops) sample_sensors (received 0 6 [0])
                  (Alex.set_newDist 26
                     (Alex.set_deltaDist 5 (running_state FORWARD)))
                  D A eq_refl eq_refl (or_introl eq_refl) B)).
Defined.

(** X15 on a counter of 3000000000 in slot 1. *)
Lemma wire_round_trip_witness :
  read_int32 (1 :: flat_map le32 [7; 3000000000] ++ [0]) (1 + 4 * 1)
  = -1294967296.
Proof.
  assert (L : [7; 3000000000] !! 1%nat = Some 3000000000) by reflexivity.
  destruct (wire_round_trip [7; 3000000000] 1 3000000000 1 [0] L)
    as (_ & R & _ & W).
  rewrite R. rewrite W by lia. reflexivity.
Defined.

(** X20 on the keys f, q, g with failing writes. *)
Lemma writer_leaves_only_on_quit_witness :
  (Client.writerThread (H := Client.sample_host)
     [("f"%char, 0)] 1).2 = false
  /\ Client.writerThread (H := Client.sample_host)
       ([("f"%char, 0)] ++ ("q"%char, 0) :: [("g"%char, 8)]) 1
     = Client.writerThread (H := Client.sample_host)
         ([("f"%char, 0)] ++ [("q"%char, 0)]) 1.
Proof.
  assert (P : Forall (fun k : ascii * Z => is_quit k.1 = false) [("f"%char, 0)])
    by (repeat constructor).
  destruct (writer_leaves_only_on_quit (H := Client.sample_host)
              [("f"%char, 0)] [("g"%char, 8)] "q" 0 1 P eq_refl)
    as (A & _ & B).
  split; [exact A | exact B].
Defined.


(** X22 on the input of an empty line, then [q], then [s]. *)
Lemma keystrokes_per_line_witness :
  Client.keystrokes (IO := Client.sample_stdio)
    (Client.newline :: ["q"%char] ++ Client.newline :: ["s"%char; Client.newline])
  = [Client.newline; "s"%char].
Proof.
  assert (P : Forall (fun x => Ascii.eqb x Client.newline = false
                               /\ Client.is_eof (IO := Client.sample_stdio) x
                                  = false) ["q"%char])
    by (repeat constructor).
  destruct (keystrokes_per_line (H := Client.sample_host)
              (IO := Client.sample_stdio) "q" Client.newline ["q"%char]
              ["s"%char; Client.newline] 0 1 P (or_introl eq_refl))
    as (_ & E & _).
  rewrite E. reflexivity.
Defined.

(** X23 on the sample constants, with an inbound packet of type 9. *)
Lemma inbound_unknown_dropped_witness :
  Client.handleNetwork (K := sample_constants) (H := Client.sample_host)
    (N := Client.sample_net) [9; 1; 2; 3] 4 = [].
Proof.
  refine (proj1 (inbound_unknown_dropped (K := sample_constants)
                   (H := Client.sample_host) (N := Client.sample_net)
                   [9; 1; 2; 3] 4 _) _); by_evaluation.
Defined.

(** X24 at 90 degrees, five ticks on the sample formulas, after five
    left-wheel ticks. *)
Lemma left_stops_at_target_witness :
  Alex.targetTicks
    (Nat.iter 5 (Alex.leftISR (F := sample_floatops))
       (Alex.left (F := sample_floatops) 90 100 (running_state STOP)).1) = 23
  /\ Alex.leftReverseTicksTurns
       (Nat.iter 5 (Alex.leftISR (F := sample_floatops))
          (Alex.left (F := sample_floatops) 90 100 (running_state STOP)).1) = 23.
Proof.
  assert (A : 90 <> 0) by lia.
  assert (T : 0 < Alex.computeDeltaTicks (FloatOps := sample_floatops) 90)
    by (vm_compute; reflexivity).
  pose proof (left_stops_at_target (K := sample_constants)
                (F := sample_floatops) sample_sensors (received 0 0 [])
                90 100 4 (running_state STOP) A T) as G.
  cbv zeta in G. destruct G as (G1 & G2 & _).
  split; [exact G2 | exact G1].
Defined.

(** X25 at 10 degrees, which the sample formulas convert to no tick. *)
Lemma short_turn_never_stops_witness :
  exists s',
    Alex.run (K := sample_constants) (F := sample_floatops)
      [Alex.INT3_vect; Alex.INT2_vect;
       Alex.Pass sample_sensors (PACKET_INCOMPLETE, received 0 0 [])]
      (Alex.left (F := sample_floatops) 10 100 (running_state STOP)).1
    = Some (s', [])
    /\ Alex.dir s' = LEFT.
Proof.
  assert (A : 10 <> 0) by lia.
  assert (Z0 : Alex.computeDeltaTicks (FloatOps := sample_floatops) 10 = 0)
    by (vm_compute; reflexivity).
  apply (short_turn_never_stops (K := sample_constants) (F := sample_floatops)
           10 100 _ (running_state STOP) A Z0).
  repeat constructor.
Defined.

End MoreEvaluations.
